(** * smolagents/logger.py: step records, message projection, trace store

    A shallow embedding of [src/smolagents/logger.py] and the properties of
    its step-to-message projection, its trace store and its replay loop.

    Python values are modelled as follows.
    - [str] is [string]; a character is an 8-bit code point.
    - [None]-able fields are [option]s; a [dict] with a fixed set of keys is
      a record, a [dict] whose keys are inspected is an association list
      (insertion order is kept, as Python does).
    - A raised exception is the [Raise] branch of [result]; console output
      is the list of entries written so far. *)

From Stdlib Require Import String Ascii List Bool Arith ZArith Lia.
From Stdlib Require Import DecimalString SpecFloat.
Import ListNotations.

Local Open Scope string_scope.
Local Open Scope list_scope.

Set Warnings "-register-all".

(** ** Python-level values and failures *)

Module Py.

(** The exceptions this file can raise, with the data their message has. *)
Inductive exn : Type :=
| IndexError                                  (* list index out of range *)
| AttributeError (cls attr : string)          (* 'cls' object has no attribute 'attr' *)
| TypeError (msg : string)
| AssertionError (msg : string)
| BaseException_other.                        (* raised by [eval]; not an [Exception] *)

Inductive result (A : Type) : Type :=
| Ok (a : A)
| Raise (e : exn).
Arguments Ok {A} a.
Arguments Raise {A} e.

Definition bind {A B} (r : result A) (k : A -> result B) : result B :=
  match r with
  | Ok a => k a
  | Raise e => Raise e
  end.

(** JSON-like values: what [dict()] exports and message contents hold. *)
Inductive val : Type :=
| None_
| Bool (b : bool)
| Int (z : Z)
| Float (f : spec_float)
| Str (s : string)
| List (l : list val)
| Dict (d : list (string * val)).

Definition newline : string := String "010"%char EmptyString.

(** [str.isspace] on one character (code points below 256). *)
Definition isspace (c : ascii) : bool :=
  let n := nat_of_ascii c in
  (((9 <=? n) && (n <=? 13)) || ((28 <=? n) && (n <=? 32))
   || (n =? 133) || (n =? 160))%nat.

Fixpoint lstrip (s : string) : string :=
  match s with
  | EmptyString => EmptyString
  | String c s' => if isspace c then lstrip s' else s
  end.

Fixpoint rstrip (s : string) : string :=
  match s with
  | EmptyString => EmptyString
  | String c s' =>
      match rstrip s' with
      | EmptyString => if isspace c then EmptyString else String c EmptyString
      | r => String c r
      end
  end.

(** [str.strip()] *)
Definition strip (s : string) : string := rstrip (lstrip s).

Definition upper_char (c : ascii) : ascii :=
  let n := nat_of_ascii c in
  if ((97 <=? n) && (n <=? 122))%nat then ascii_of_nat (n - 32) else c.

(** [str.upper()] on ASCII text.  A character from 128 on is left as it
    is, which is not what Python does with a letter there; statements
    that go through [upper] are about ASCII text ([is_ascii]). *)
Fixpoint upper (s : string) : string :=
  match s with
  | EmptyString => EmptyString
  | String c s' => String (upper_char c) (upper s')
  end.

(** [str.isascii()] *)
Fixpoint is_ascii (s : string) : bool :=
  match s with
  | EmptyString => true
  | String c s' => (nat_of_ascii c <? 128)%nat && is_ascii s'
  end.

(** [str(n)] for a non-negative [int]. *)
Definition str_of_nat (n : nat) : string :=
  NilEmpty.string_of_uint (Nat.to_uint n).

(** [l[0]] *)
Definition index0 {A} (l : list A) : result A :=
  match l with
  | x :: _ => Ok x
  | [] => Raise IndexError
  end.

(** Truth value of an optional list: [None] and [[]] are false. *)
Definition truthy {A} (o : option (list A)) : bool :=
  match o with
  | Some (_ :: _) => true
  | _ => false
  end.

(** [l[1:]] *)
Definition slice_from_1 {A} (l : list A) : list A := tl l.

End Py.

Notation "x <- e ;; k" := (Py.bind e (fun x => k))
  (at level 61, e at next level, right associativity).

(** ** Collaborators outside this file

    [logger.py] imports [MessageRole] and [ChatMessage] from
    [smolagents.models], [AgentError] and [make_json_serializable] from
    [smolagents.utils], and calls the builtins [str], [eval] and
    [json.dumps].  None of them is defined in the file; their behaviour is
    a parameter of the development. *)

(** Modelled from the spec: [MessageRole] (imported from
    [smolagents.models]) is the closed set of role tags [system], [user],
    [assistant], [tool-response]; only the four members used by
    [logger.py] are listed. *)
Inductive MessageRole : Type := SYSTEM | USER | ASSISTANT | TOOL_RESPONSE.

(** The string a role tag stands for. *)
Definition role_value (r : MessageRole) : string :=
  match r with
  | SYSTEM => "system"
  | USER => "user"
  | ASSISTANT => "assistant"
  | TOOL_RESPONSE => "tool-response"
  end.

(** What [eval(source)] does with a string: it returns a value, raises an
    exception derived from [Exception] (a [SyntaxError], a [NameError],
    ...), or raises one that is not ([SystemExit], [KeyboardInterrupt]).
    A returned value is modelled when it is JSON-like ([Py.val]); what
    [eval] returns beyond that (a set, a function, a dict that
    [json.dumps] refuses) has no counterpart here, and no statement is
    made about it. *)
Inductive EvalOutcome : Type :=
| Returns (v : Py.val)
| RaisesException
| RaisesBaseException.

Class Collaborators : Type := {
  Any : Type;                                   (* typing.Any payloads *)
  AgentError : Type;
  ChatMessage : Type;
  make_json_serializable : Any -> Py.val;
  AgentError_str : AgentError -> string;        (* str(error) *)
  AgentError_dict : AgentError -> Py.val;       (* error.dict() *)
  ChatMessage_dict : ChatMessage -> Py.val;     (* msg.dict() *)
  py_repr : Py.val -> string;                   (* repr(value) *)
  json_dumps : Py.val -> string;                (* json.dumps(value, indent=4) *)
  py_eval : string -> EvalOutcome               (* eval(source) *)
}.

(** [str(value)]: a string is its own rendering, anything else is
    rendered by [repr]. *)
Definition py_str `{Collaborators} (v : Py.val) : string :=
  match v with
  | Py.Str s => s
  | _ => py_repr v
  end.

Definition text_part (text : string) : Py.val :=
  Py.Dict [("type", Py.Str "text"); ("text", Py.Str text)].

Definition image_part (image : string) : Py.val :=
  Py.Dict [("type", Py.Str "image"); ("image", Py.Str image)].

Definition opt_val {A} (f : A -> Py.val) (o : option A) : Py.val :=
  match o with
  | Some a => f a
  | None => Py.None_
  end.

(** ** class Message *)

Module Message.

Record t : Type := make { role : MessageRole; content : Py.val }.

(** [asdict(self)]: a dict with the keys [role] and [content], both
    copied; the two-key dict is the same record. *)
Definition dict (self : t) : t :=
  {| role := role self; content := content self |}.

End Message.

(** ** class ToolCall *)

Module ToolCall.
Section WithCollaborators.
Context `{Collaborators}.

Record t : Type := make { name : string; arguments : Any; id : string }.

Definition dict (self : t) : Py.val :=
  Py.Dict
    [("id", Py.Str (id self));
     ("type", Py.Str "function");
     ("function",
       Py.Dict [("name", Py.Str (name self));
                ("arguments", make_json_serializable (arguments self))])].

End WithCollaborators.
End ToolCall.

(** ** class ActionStep *)

Module ActionStep.
Section WithCollaborators.
Context `{Collaborators}.

Record t : Type := make {
  agent_memory : option (list (list (string * string)));
  tool_calls : option (list ToolCall.t);
  start_time : option spec_float;
  end_time : option spec_float;
  step_number : option Z;
  error : option AgentError;
  duration : option spec_float;
  llm_output : option string;
  observations : option string;
  observations_images : option (list string);
  action_output : Any
}.

(** The value of an [agent_memory] list: a list of string-to-string dicts. *)
Definition memory_val (m : list (list (string * string))) : Py.val :=
  Py.List (map (fun d => Py.Dict (map (fun kv => (fst kv, Py.Str (snd kv))) d)) m).

Definition dict (self : t) : list (string * Py.val) :=
  [("agent_memory", opt_val memory_val (agent_memory self));
   ("tool_calls",
     Py.List (match tool_calls self with
              | Some (tc :: tcs) => map ToolCall.dict (tc :: tcs)
              | _ => []
              end));
   ("start_time", opt_val Py.Float (start_time self));
   ("end_time", opt_val Py.Float (end_time self));
   ("step", opt_val Py.Int (step_number self));
   ("error", opt_val AgentError_dict (error self));
   ("duration", opt_val Py.Float (duration self));
   ("llm_output", opt_val Py.Str (llm_output self));
   ("observations", opt_val Py.Str (observations self));
   ("action_output", make_json_serializable (action_output self))].

(** The text built at lines 102-106 from [str(self.error)]. *)
Definition message_content (e : AgentError) : string :=
  "Error:" ++ Py.newline ++ AgentError_str e ++ Py.newline
  ++ "Now let's retry: take care not to repeat previous errors! If you have retried several times, try a completely different approach."
  ++ Py.newline.

(** [to_messages]: [memory] is the local list the method appends to; each
    [let memory := ...] is one guarded [memory.append].  Indexing
    [self.tool_calls[0]] is the one step that can raise. *)
Definition to_messages (self : t) (summary_mode return_memory : bool)
  : Py.result (list Message.t) :=
  let memory : list Message.t := [] in
  let memory :=
    match agent_memory self with
    | Some am =>
        if return_memory
        then memory ++ [Message.dict (Message.make SYSTEM (memory_val am))]
        else memory
    | None => memory
    end in
  let memory :=
    match llm_output self with
    | Some out =>
        if negb summary_mode
        then memory ++ [Message.dict
                          (Message.make ASSISTANT (Py.List [text_part (Py.strip out)]))]
        else memory
    | None => memory
    end in
  let memory :=
    match tool_calls self with
    | Some tcs =>
        memory ++ [Message.dict
                     (Message.make ASSISTANT
                        (Py.List [text_part (py_str (Py.List (map ToolCall.dict tcs)))]))]
    | None => memory
    end in
  memory <-
    match error self with
    | Some e =>
        tool_response_message <-
          match tool_calls self with
          | None =>
              Py.Ok (Message.make ASSISTANT (Py.List [text_part (message_content e)]))
          | Some tcs =>
              tc <- Py.index0 tcs ;;
              Py.Ok (Message.make TOOL_RESPONSE
                       (Py.Str ("Call id: " ++ ToolCall.id tc ++ Py.newline
                                ++ message_content e)))
          end ;;
        Py.Ok (memory ++ [Message.dict tool_response_message])
    | None =>
        match observations self, tool_calls self with
        | Some obs, Some tcs =>
            tc <- Py.index0 tcs ;;
            Py.Ok (memory ++
                   [Message.dict
                      (Message.make TOOL_RESPONSE
                         (Py.Str ("Call id: " ++ ToolCall.id tc ++ Py.newline
                                  ++ "Observation:" ++ Py.newline ++ obs)))])
        | _, _ => Py.Ok memory
        end
    end ;;
  let memory :=
    if Py.truthy (observations_images self)
    then
      match observations_images self with
      | Some images =>
          memory ++ [Message.dict
                       (Message.make USER
                          (Py.List ([text_part "Here are the observed images:"]
                                    ++ map image_part images)))]
      | None => memory
      end
    else memory in
  Py.Ok memory.

End WithCollaborators.
End ActionStep.

(** ** class PlanningStep *)

Module PlanningStep.

Record t : Type := make { plan : string; facts : string }.

(** [asdict(self)] *)
Definition dict (self : t) : list (string * Py.val) :=
  [("plan", Py.Str (plan self)); ("facts", Py.Str (facts self))].

Definition to_messages (self : t) (summary_mode : bool) : list Message.t :=
  let memory : list Message.t := [] in
  let thought_message :=
    Message.make ASSISTANT
      (Py.Str ("[FACTS LIST]:" ++ Py.newline ++ Py.strip (facts self))) in
  let memory := memory ++ [Message.dict thought_message] in
  let memory :=
    if negb summary_mode
    then
      let thought_message :=
        Message.make ASSISTANT
          (Py.Str ("[PLAN]:" ++ Py.newline ++ Py.strip (plan self))) in
      memory ++ [Message.dict thought_message]
    else memory in
  memory.

End PlanningStep.

(** ** class TaskStep *)

Module TaskStep.

Record t : Type := make { task : string; task_images : option (list string) }.

(** [asdict(self)] *)
Definition dict (self : t) : list (string * Py.val) :=
  [("task", Py.Str (task self));
   ("task_images",
     opt_val (fun l => Py.List (map Py.Str l)) (task_images self))].

(** The [for image in self.task_images] loop: one [content.append] per
    image. *)
Fixpoint append_images (content : list Py.val) (images : list string)
  : list Py.val :=
  match images with
  | [] => content
  | image :: rest => append_images (content ++ [image_part image]) rest
  end.

Definition to_messages (self : t) (summary_mode : bool) : list Message.t :=
  let content := [text_part ("New task:" ++ Py.newline ++ task self)] in
  let content :=
    if Py.truthy (task_images self)
    then
      match task_images self with
      | Some images => append_images content images
      | None => content
      end
    else content in
  let message := Message.make USER (Py.List content) in
  [Message.dict message].

End TaskStep.

(** ** class SystemPromptStep *)

Module SystemPromptStep.

Record t : Type := make { system_prompt : string }.

(** [asdict(self)] *)
Definition dict (self : t) : list (string * Py.val) :=
  [("system_prompt", Py.Str (system_prompt self))].

Definition to_messages (self : t) (summary_mode : bool) : list Message.t :=
  if negb summary_mode
  then
    let message :=
      Message.make SYSTEM (Py.List [text_part (Py.strip (system_prompt self))]) in
    [Message.dict message]
  else [].

End SystemPromptStep.

(** ** class AgentStepLog and its four subclasses *)

Module AgentStepLog.
Section WithCollaborators.
Context `{Collaborators}.

(** An object stored in the trace: an instance of one of the dataclasses
    deriving from [AgentStepLog]. *)
Inductive t : Type :=
| Action (a : ActionStep.t)
| Planning (p : PlanningStep.t)
| Task (k : TaskStep.t)
| SystemPrompt (s : SystemPromptStep.t).

Definition class_name (self : t) : string :=
  match self with
  | Action _ => "ActionStep"
  | Planning _ => "PlanningStep"
  | Task _ => "TaskStep"
  | SystemPrompt _ => "SystemPromptStep"
  end.

(** [self.dict()]: [ActionStep] overrides it, the others inherit
    [asdict(self)]. *)
Definition dict (self : t) : list (string * Py.val) :=
  match self with
  | Action a => ActionStep.dict a
  | Planning p => PlanningStep.dict p
  | Task k => TaskStep.dict k
  | SystemPrompt s => SystemPromptStep.dict s
  end.

(** The dataclass fields of an instance. *)
Definition fields (self : t) : list string :=
  match self with
  | Action _ =>
      ["agent_memory"; "tool_calls"; "start_time"; "end_time"; "step_number";
       "error"; "duration"; "llm_output"; "observations";
       "observations_images"; "action_output"]
  | Planning _ => ["plan"; "facts"]
  | Task _ => ["task"; "task_images"]
  | SystemPrompt _ => ["system_prompt"]
  end.

Definition mem (name : string) (names : list string) : bool :=
  existsb (String.eqb name) names.

(** [self.<name>()], a call without arguments of the attribute [name]:
    [dict] is the one method that takes none; [to_messages] needs
    [summary_mode]; a field holds data, which is not callable; any other
    name is not an attribute of the instance. *)
Definition call_method (self : t) (name : string) : Py.result Py.val :=
  if name =? "dict" then Py.Ok (Py.Dict (dict self))
  else if name =? "to_messages"
  then Py.Raise (Py.TypeError "to_messages() missing 1 required positional argument: 'summary_mode'")
  else if mem name (fields self)
  then Py.Raise (Py.TypeError "object is not callable")
  else Py.Raise (Py.AttributeError (class_name self) name).

(** Keyword arguments of a call. *)
Definition kwargs : Type := list (string * bool).

Fixpoint keyword (name : string) (kw : kwargs) : option bool :=
  match kw with
  | [] => None
  | (k, v) :: rest => if k =? name then Some v else keyword name rest
  end.

Definition required (name : string) (kw : kwargs) : Py.result bool :=
  match keyword name kw with
  | Some v => Py.Ok v
  | None =>
      Py.Raise (Py.TypeError
                  ("to_messages() missing 1 required positional argument: '"
                   ++ name ++ "'"))
  end.

(** A signature without a catch-all keyword parameter accepts only its own parameters. *)
Definition only (allowed : list string) (kw : kwargs) : Py.result unit :=
  if forallb (fun kv => mem (fst kv) allowed) kw
  then Py.Ok tt
  else Py.Raise (Py.TypeError "to_messages() got an unexpected keyword argument").

(** Each keyword is passed once. *)
Fixpoint distinct (names : list string) : bool :=
  match names with
  | [] => true
  | n :: rest => negb (mem n rest) && distinct rest
  end.

(** What every call by keyword must satisfy, whatever the signature:
    [self] is bound to the instance already, so a keyword [self] is a
    second value for it, and no keyword comes twice. *)
Definition well_formed (kw : kwargs) : Py.result unit :=
  if mem "self" (map fst kw)
  then Py.Raise (Py.TypeError "to_messages() got multiple values for argument 'self'")
  else if distinct (map fst kw)
  then Py.Ok tt
  else Py.Raise (Py.TypeError "to_messages() got multiple values for keyword argument").

(** [self.to_messages] called with the keyword arguments [kw]: they are bound
    to the signature of the class of [self], then its method runs. *)
Definition call_to_messages (self : t) (kw : kwargs)
  : Py.result (list Message.t) :=
  _ <- well_formed kw ;;
  match self with
  | Action a =>
      _ <- only ["summary_mode"; "return_memory"] kw ;;
      summary_mode <- required "summary_mode" kw ;;
      return_memory <- required "return_memory" kw ;;
      ActionStep.to_messages a summary_mode return_memory
  | Planning p =>
      summary_mode <- required "summary_mode" kw ;;
      Py.Ok (PlanningStep.to_messages p summary_mode)
  | Task k =>
      summary_mode <- required "summary_mode" kw ;;
      Py.Ok (TaskStep.to_messages k summary_mode)
  | SystemPrompt s =>
      summary_mode <- required "summary_mode" kw ;;
      Py.Ok (SystemPromptStep.to_messages s summary_mode)
  end.

(** [self.to_messages(summary_mode=..., return_memory=...)] *)
Definition to_messages (self : t) (summary_mode return_memory : bool)
  : Py.result (list Message.t) :=
  call_to_messages self
    [("summary_mode", summary_mode); ("return_memory", return_memory)].

End WithCollaborators.
End AgentStepLog.

(** ** class LogLevel *)

Inductive LogLevel : Type := ERROR | INFO | DEBUG.

(** The integer of a member of the [IntEnum]. *)
Definition LogLevel_value (l : LogLevel) : Z :=
  match l with
  | ERROR => 0
  | INFO => 1
  | DEBUG => 2
  end.

(** [LogLevel[name]]: the member of that name, if there is one. *)
Definition LogLevel_by_name (name : string) : option LogLevel :=
  if name =? "ERROR" then Some ERROR
  else if name =? "INFO" then Some INFO
  else if name =? "DEBUG" then Some DEBUG
  else None.

(** ** class AgentLogger *)

Module AgentLogger.
Section WithCollaborators.
Context `{Collaborators}.

(** What has been written to the console: a line of text, or a titled
    block ([Rule] and [Syntax]) with its theme. *)
Inductive console_entry : Type :=
| Text (text : string)
| Block (title body theme : string).

(** The instance attributes set by [__init__]; [console] is the output
    written so far. *)
Record t : Type := make {
  level : LogLevel;
  steps : list AgentStepLog.t;
  chat_messages : list ChatMessage;
  console : list console_entry
}.

(** [AgentLogger(level)] *)
Definition init (level : LogLevel) : t :=
  {| level := level; steps := []; chat_messages := []; console := [] |}.

Definition set_steps (self : t) (l : list AgentStepLog.t) : t :=
  {| level := level self; steps := l;
     chat_messages := chat_messages self; console := console self |}.

Definition console_log (self : t) (entries : list console_entry) : t :=
  {| level := level self; steps := steps self;
     chat_messages := chat_messages self;
     console := console self ++ entries |}.

Definition reset (self : t) : t := set_steps self [].

(** [position] is [None] or an [int]. *)
Definition log_step (self : t) (step : AgentStepLog.t) (position : option Z)
  : Py.result t :=
  match position with
  | None => Py.Ok (set_steps self (steps self ++ [step]))
  | Some position =>
      if (position =? 0)%Z
      then Py.Ok (set_steps self ([step] ++ Py.slice_from_1 (steps self)))
      else Py.Raise (Py.AssertionError "Position should only be 0 for system prompt.")
  end.

Definition log_chat_messages (self : t) (msg : ChatMessage) : t :=
  {| level := level self; steps := steps self;
     chat_messages := chat_messages self ++ [msg]; console := console self |}.

(** [for key, value in pairs]: every element must unpack into two. *)
Fixpoint unpack_pairs (l : list Py.val) : Py.result (list (string * Py.val)) :=
  match l with
  | [] => Py.Ok []
  | Py.List [Py.Str key; value] :: rest =>
      kvs <- unpack_pairs rest ;; Py.Ok ((key, value) :: kvs)
  | _ => Py.Raise (Py.TypeError "cannot unpack into key, value")
  end.

Definition iterate_pairs (v : Py.val) : Py.result (list (string * Py.val)) :=
  match v with
  | Py.List l => unpack_pairs l
  | _ => Py.Raise (Py.TypeError "cannot unpack into key, value")
  end.

(** The body of the outer comprehension of [get_succinct_logs]. *)
Definition succinct (log : AgentStepLog.t) : Py.result (list (string * Py.val)) :=
  pairs <- AgentStepLog.call_method log "items" ;;
  kvs <- iterate_pairs pairs ;;
  Py.Ok (filter (fun kv => negb (fst kv =? "agent_memory")) kvs).

Fixpoint comprehension {A B} (f : A -> Py.result B) (l : list A)
  : Py.result (list B) :=
  match l with
  | [] => Py.Ok []
  | x :: rest => y <- f x ;; ys <- comprehension f rest ;; Py.Ok (y :: ys)
  end.

Definition get_succinct_logs (self : t)
  : Py.result (list (list (string * Py.val))) :=
  comprehension succinct (steps self).

Definition get_extended_logs (self : t) : list (string * Py.val) :=
  [("steps", Py.List (map (fun step => Py.Dict (AgentStepLog.dict step)) (steps self)));
   ("chat_messages", Py.List (map ChatMessage_dict (chat_messages self)))].


(** *** Attribute lookup on the logger *)

(** What an attribute of an [AgentLogger] evaluates to. *)
Inductive obj : Type :=
| OLogger (l : t)
| OLevel (v : LogLevel)
| OSteps (l : list AgentStepLog.t)
| OChatMessages (l : list ChatMessage)
| OConsole (c : list console_entry)
| OMethod (name : string).

Definition methods : list string :=
  ["reset"; "log"; "log_step"; "log_chat_messages"; "get_succinct_logs";
   "get_extended_logs"; "replay"].

(** [self.<name>]: the instance attributes of [__init__], then the
    methods of the class (the double-underscore names every object has
    are left out). *)
Definition getattr (self : t) (name : string) : Py.result obj :=
  if name =? "level" then Py.Ok (OLevel (level self))
  else if name =? "steps" then Py.Ok (OSteps (steps self))
  else if name =? "chat_messages" then Py.Ok (OChatMessages (chat_messages self))
  else if name =? "console" then Py.Ok (OConsole (console self))
  else if AgentStepLog.mem name methods then Py.Ok (OMethod name)
  else Py.Raise (Py.AttributeError "AgentLogger" name).

Definition type_name (o : obj) : string :=
  match o with
  | OLogger _ => "AgentLogger"
  | OLevel _ => "LogLevel"
  | OSteps _ => "list"
  | OChatMessages _ => "list"
  | OConsole _ => "Console"
  | OMethod _ => "method"
  end.

(** [o.steps]: only a logger has that attribute. *)
Definition getattr_steps (o : obj) : Py.result (list AgentStepLog.t) :=
  match o with
  | OLogger l => Py.Ok (steps l)
  | _ => Py.Raise (Py.AttributeError (type_name o) "steps")
  end.

(** *** replay, lines 242-244: collecting the messages *)

(** The loop [for step_log in ...: memory.extend(step_log.to_messages(
    return_memory=with_memory))]. *)
Fixpoint extend_all (memory : list Message.t) (steps : list AgentStepLog.t)
  (with_memory : bool) : Py.result (list Message.t) :=
  match steps with
  | [] => Py.Ok memory
  | step_log :: rest =>
      messages <- AgentStepLog.call_to_messages step_log
                    [("return_memory", with_memory)] ;;
      extend_all (memory ++ messages) rest with_memory
  end.

Definition collect (self : t) (with_memory : bool) : Py.result (list Message.t) :=
  logger <- getattr self "logger" ;;
  steps <- getattr_steps logger ;;
  extend_all [] steps with_memory.

(** *** replay, lines 246-281: rendering the messages *)

(** [eval(content)]: a string is evaluated; anything else is refused with
    a [TypeError], which derives from [Exception]. *)
Definition eval (content : Py.val) : EvalOutcome :=
  match content with
  | Py.Str source => py_eval source
  | _ => RaisesException
  end.

(** Lines 262-266: [try: content = eval(content)] and its
    [except Exception] fallback to a one-element list. *)
Definition interpret (content : Py.val) : Py.result Py.val :=
  match eval content with
  | Returns v => Py.Ok v
  | RaisesException => Py.Ok (Py.List [content])
  | RaisesBaseException => Py.Raise Py.BaseException_other
  end.

(** The items [enumerate(content)] goes through: the elements of a list,
    the characters of a string, the keys of a dict. *)
Definition iterate (content : Py.val) : Py.result (list Py.val) :=
  match content with
  | Py.List l => Py.Ok l
  | Py.Str s => Py.Ok (map (fun c => Py.Str (String c EmptyString)) (list_ascii_of_string s))
  | Py.Dict d => Py.Ok (map (fun kv => Py.Str (fst kv)) d)
  | _ => Py.Raise (Py.TypeError "object is not iterable")
  end.

(** The [match role] statement: theme and turn counter.  The statement
    [role == "memory"] before it compares and changes nothing. *)
Definition turn (role : string) (ix : nat) : string * nat :=
  if role =? "assistant" then ("monokai", S ix)
  else if role =? "system" then ("monokai", ix)
  else if role =? "tool-response" then ("github_dark", ix)
  else ("default", ix).

Definition title (role : string) (ix substep_ix total : nat) : string :=
  Py.upper role ++ ", STEP " ++ Py.str_of_nat ix ++ ", SUBSTEP "
  ++ Py.str_of_nat (substep_ix + 1) ++ "/" ++ Py.str_of_nat total.

Definition body (item : Py.val) : string :=
  match item with
  | Py.Dict _ => json_dumps item
  | _ => py_str item
  end.

(** The inner loop: one block per item. *)
Fixpoint blocks (role theme : string) (ix total substep_ix : nat)
  (items : list Py.val) : list console_entry :=
  match items with
  | [] => []
  | item :: rest =>
      Block (title role ix substep_ix total) (body item) theme
      :: blocks role theme ix total (S substep_ix) rest
  end.

(** The outer loop [for step in memory]: what it writes to the console,
    and the exception that ended it, if any. *)
Fixpoint render (memory : list Message.t) (ix : nat)
  : list console_entry * option Py.exn :=
  match memory with
  | [] => ([], None)
  | step :: rest =>
      let role := Py.strip (role_value (Message.role step)) in
      let '(theme, ix) := turn role ix in
      match (content <- interpret (Message.content step) ;; iterate content) with
      | Py.Raise e => ([], Some e)
      | Py.Ok items =>
          let '(written, e) := render rest ix in
          (blocks role theme ix (length items) 0 items ++ written, e)
      end
  end.

(** [replay]: the logger afterwards (its console), and the exception
    that ended the call, if any. *)
Definition replay (self : t) (with_memory : bool) : t * option Py.exn :=
  match collect self with_memory with
  | Py.Raise e => (self, Some e)
  | Py.Ok memory =>
      let self := console_log self [Text "Replaying the agent's steps:"] in
      let '(written, e) := render memory 0 in
      (console_log self written, e)
  end.

(** *** log, lines 196-205 *)

(** The [level] argument: a name or a member of [LogLevel]. *)
Inductive level_arg : Type :=
| LevelName (name : string)
| Level (l : LogLevel).

(** How [log] ends: it returns, or [LogLevel[...]] raises [KeyError]. *)
Inductive log_outcome : Type :=
| Logged (self : t)
| KeyError (name : string).

(** [log] called with some arguments and [level=at_level]; [printed] is what
    [console.print] writes for those arguments.  A level name goes
    through [Py.upper], so the lookup by name is that of the code for
    ASCII names. *)
Definition log (self : t) (printed : console_entry) (at_level : level_arg)
  : log_outcome :=
  let resolved :=
    match at_level with
    | LevelName name =>
        match LogLevel_by_name (Py.upper name) with
        | Some l => inl l
        | None => inr (Py.upper name)
        end
    | Level l => inl l
    end in
  match resolved with
  | inr name => KeyError name
  | inl l =>
      if (LogLevel_value l <=? LogLevel_value (level self))%Z
      then Logged (console_log self [printed])
      else Logged self
  end.

(** [log_step] called without a position for each step of a list, in
    order. *)
Fixpoint log_steps (self : t) (new_steps : list AgentStepLog.t) : Py.result t :=
  match new_steps with
  | [] => Py.Ok self
  | step :: rest => self <- log_step self step None ;; log_steps self rest
  end.

End WithCollaborators.
End AgentLogger.

(** ** The specification's side

    What sections 4.1, 4.2 and 6 of the specification say, written
    without reference to the methods above; the theorems compare the two. *)

Module Spec.
Section WithCollaborators.
Context `{Collaborators}.

(** The entries of an optional list. *)
Definition entries {A} (o : option (list A)) : list A :=
  match o with
  | Some l => l
  | None => []
  end.

(** The projection of an [ActionStep] can index [toolCalls[0]] when it
    needs to: [toolCalls] is not the empty list, or neither [error] nor
    [observations] is set. *)
Definition indexable (s : ActionStep.t) : Prop :=
  ActionStep.tool_calls s = Some [] ->
  ActionStep.error s = None /\ ActionStep.observations s = None.

(** Item 1: the memory echo. *)
Definition memory_part (s : ActionStep.t) (include_memory : bool)
  : list Message.t :=
  match ActionStep.agent_memory s with
  | Some am =>
      if include_memory
      then [Message.make SYSTEM (ActionStep.memory_val am)]
      else []
  | None => []
  end.

(** Item 2: the trimmed model output. *)
Definition llm_part (s : ActionStep.t) (summary_mode : bool) : list Message.t :=
  match ActionStep.llm_output s with
  | Some out =>
      if summary_mode
      then []
      else [Message.make ASSISTANT (Py.List [text_part (Py.strip out)])]
  | None => []
  end.

(** Item 3: the textual dump of the serialized tool calls. *)
Definition tool_calls_part (s : ActionStep.t) : list Message.t :=
  match ActionStep.tool_calls s with
  | Some tcs =>
      [Message.make ASSISTANT
         (Py.List [text_part (py_str (Py.List (map ToolCall.dict tcs)))])]
  | None => []
  end.

Definition error_message (e : AgentError) (call : option ToolCall.t)
  : Message.t :=
  match call with
  | None =>
      Message.make ASSISTANT (Py.List [text_part (ActionStep.message_content e)])
  | Some tc =>
      Message.make TOOL_RESPONSE
        (Py.Str ("Call id: " ++ ToolCall.id tc ++ Py.newline
                 ++ ActionStep.message_content e))
  end.

Definition observation_message (tc : ToolCall.t) (obs : string) : Message.t :=
  Message.make TOOL_RESPONSE
    (Py.Str ("Call id: " ++ ToolCall.id tc ++ Py.newline ++ "Observation:"
             ++ Py.newline ++ obs)).

(** Item 4: the error message, else the observation message, else
    nothing.  Where [toolCalls] is the empty list there is no first call
    to name, and the item says nothing. *)
Definition error_or_observation_part (s : ActionStep.t) : list Message.t :=
  match ActionStep.error s, ActionStep.tool_calls s, ActionStep.observations s with
  | Some e, None, _ => [error_message e None]
  | Some e, Some (tc :: _), _ => [error_message e (Some tc)]
  | None, Some (tc :: _), Some obs => [observation_message tc obs]
  | _, _, _ => []
  end.

(** Item 5: the observed images. *)
Definition images_part (s : ActionStep.t) : list Message.t :=
  match ActionStep.observations_images s with
  | Some (image :: images) =>
      [Message.make USER
         (Py.List (text_part "Here are the observed images:"
                   :: map image_part (image :: images)))]
  | _ => []
  end.

(** The projection returns the five items in their order, the fourth
    being [slot]. *)
Definition projects_with (slot : list Message.t) (s : ActionStep.t)
  (summary_mode include_memory : bool) : Prop :=
  ActionStep.to_messages s summary_mode include_memory
  = Py.Ok (memory_part s include_memory ++ llm_part s summary_mode
           ++ tool_calls_part s ++ slot ++ images_part s).

(** Section 4.1, item 4, as the projection's fourth slot: at most one
    message; the error message in the shape the null-ness of
    [toolCalls] selects; without an error, the observation message
    exactly when [observations] and [toolCalls] are both present. *)
Definition error_xor_observation (s : ActionStep.t)
  (summary_mode include_memory : bool) : Prop :=
  exists slot,
    projects_with slot s summary_mode include_memory
    /\ length slot <= 1
    /\ (forall e, ActionStep.error s = Some e ->
        (ActionStep.tool_calls s = None ->
         slot = [Message.make ASSISTANT
                   (Py.List [text_part (ActionStep.message_content e)])])
        /\ (ActionStep.tool_calls s <> None ->
            exists tc rest,
              ActionStep.tool_calls s = Some (tc :: rest)
              /\ slot = [Message.make TOOL_RESPONSE
                           (Py.Str ("Call id: " ++ ToolCall.id tc ++ Py.newline
                                    ++ ActionStep.message_content e))]))
    /\ (ActionStep.error s = None ->
        (slot <> [] <->
         ActionStep.observations s <> None /\ ActionStep.tool_calls s <> None)
        /\ (slot <> [] ->
            exists tc rest obs,
              ActionStep.tool_calls s = Some (tc :: rest)
              /\ ActionStep.observations s = Some obs
              /\ slot = [Message.make TOOL_RESPONSE
                           (Py.Str ("Call id: " ++ ToolCall.id tc ++ Py.newline
                                    ++ "Observation:" ++ Py.newline ++ obs))])).

(** Section 4.1, the fixed order of the five items. *)
Definition projects_in_order (s : ActionStep.t)
  (summary_mode include_memory : bool) : Prop :=
  projects_with (error_or_observation_part s) s summary_mode include_memory.

(** Whether an item fired. *)
Definition fired (part : list Message.t) : bool :=
  match part with
  | [] => false
  | _ :: _ => true
  end.

(** Modelled from the spec: [projectAll(summaryMode, includeMemory)] of
    section 6, the concatenation over the stored steps, in order, of
    their projections; [logger.py] has no such method. *)
Fixpoint project_all (steps : list AgentStepLog.t)
  (summary_mode include_memory : bool) : Py.result (list Message.t) :=
  match steps with
  | [] => Py.Ok []
  | step :: rest =>
      messages <- AgentStepLog.to_messages step summary_mode include_memory ;;
      more <- project_all rest summary_mode include_memory ;;
      Py.Ok (messages ++ more)
  end.

(** [succinctView()] of section 4.2: the dict-export of each step
    without its [agent_memory] key. *)
Definition succinct_view (steps : list AgentStepLog.t)
  : list (list (string * Py.val)) :=
  map (fun step =>
         filter (fun kv => negb (fst kv =? "agent_memory"))
                (AgentStepLog.dict step))
      steps.

(** The contents a projection produces: a value that is not a string
    (a list of parts, the raw memory), or a string that starts with one
    of the three fixed prefixes. *)
Definition projected (c : Py.val) : Prop :=
  (forall source, c <> Py.Str source)
  \/ exists tail,
       c = Py.Str ("Call id: " ++ tail)
       \/ c = Py.Str ("[FACTS LIST]:" ++ Py.newline ++ tail)
       \/ c = Py.Str ("[PLAN]:" ++ Py.newline ++ tail).

(** [eval] raises an [Exception] on a text with one of those prefixes
    (none of them begins a Python expression). *)
Definition eval_refuses_prefixes : Prop :=
  forall tail,
    py_eval ("Call id: " ++ tail) = RaisesException
    /\ py_eval ("[FACTS LIST]:" ++ Py.newline ++ tail) = RaisesException
    /\ py_eval ("[PLAN]:" ++ Py.newline ++ tail) = RaisesException.

End WithCollaborators.
End Spec.

(** ** A concrete choice of collaborators

    Used to run the definitions on examples: payloads carry no data, an
    error is its message, and [eval] refuses every source text. *)

Definition sample : Collaborators := {|
  Any := unit;
  AgentError := string;
  ChatMessage := unit;
  make_json_serializable := fun _ => Py.None_;
  AgentError_str := fun e => e;
  AgentError_dict := fun e => Py.Dict [("type", Py.Str "AgentError"); ("message", Py.Str e)];
  ChatMessage_dict := fun _ => Py.Dict [];
  py_repr := fun _ => "<repr>";
  json_dumps := fun _ => "<json>";
  py_eval := fun _ => RaisesException
|}.

(** An [ActionStep] with every optional field absent. *)
Definition blank_step : @ActionStep.t sample :=
  @ActionStep.make sample None None None None None None None None None None tt.

Definition call_c1 : @ToolCall.t sample := @ToolCall.make sample "search" tt "c1".

(** An [ActionStep] with the given tool calls, error, observations and
    observation images, and nothing else. *)
Definition sample_step (tcs : option (list (@ToolCall.t sample)))
  (err obs : option string) (imgs : option (list string)) : @ActionStep.t sample :=
  @ActionStep.make sample None tcs None None None err None None obs imgs tt.

(** A second choice, whose [eval] knows three source texts. *)
Definition sample_evaluating : Collaborators := {|
  Any := unit;
  AgentError := string;
  ChatMessage := unit;
  make_json_serializable := fun _ => Py.None_;
  AgentError_str := fun e => e;
  AgentError_dict := fun e => Py.Dict [("type", Py.Str "AgentError"); ("message", Py.Str e)];
  ChatMessage_dict := fun _ => Py.Dict [];
  py_repr := fun _ => "<repr>";
  json_dumps := fun _ => "<json>";
  py_eval := fun source =>
    if source =? "['a', 'b']" then Returns (Py.List [Py.Str "a"; Py.Str "b"])
    else if source =? "42" then Returns (Py.Int 42)
    else if source =? "exit()" then RaisesBaseException
    else RaisesException
|}.

(** ** Notions used to state the further properties *)

(** [l1] is [l2] with some elements left out, the order kept. *)
Inductive subsequence {A : Type} : list A -> list A -> Prop :=
| subsequence_nil : subsequence [] []
| subsequence_keep (x : A) (l1 l2 : list A) :
    subsequence l1 l2 -> subsequence (x :: l1) (x :: l2)
| subsequence_drop (x : A) (l1 l2 : list A) :
    subsequence l1 l2 -> subsequence l1 (x :: l2).

(** The number of assistant messages of a sequence. *)
Fixpoint assistant_turns (memory : list Message.t) : nat :=
  match memory with
  | [] => 0
  | m :: rest =>
      match Message.role m with
      | ASSISTANT => S (assistant_turns rest)
      | _ => assistant_turns rest
      end
  end.

(** The theme [replay] gives a role. *)
Definition role_theme (r : MessageRole) : string :=
  match r with
  | ASSISTANT | SYSTEM => "monokai"
  | TOOL_RESPONSE => "github_dark"
  | USER => "default"
  end.

(** * Properties *)

Example strip_example : Py.strip (" a b " ++ Py.newline) = "a b".
Proof. reflexivity. Qed.

Example upper_example : Py.upper "tool-response" = "TOOL-RESPONSE".
Proof. reflexivity. Qed.

Example str_of_nat_example : Py.str_of_nat 12 = "12" /\ Py.str_of_nat 0 = "0".
Proof. split; reflexivity. Qed.

Lemma Message_dict_id (m : Message.t) : Message.dict m = m.
Proof. destruct m; reflexivity. Qed.

(** ** ActionStep.to_messages *)

Section ActionStepProperties.
Context `{Collaborators}.

Ltac split_step s :=
  destruct s as [am tcs st et sn err du out obs imgs ao];
  destruct am as [am|]; destruct tcs as [[|tc tcs]|];
  destruct err as [err|]; destruct out as [out|]; destruct obs as [obs|];
  destruct imgs as [[|img imgs]|].

Ltac not_indexable H :=
  exfalso; destruct (H eq_refl) as [? ?]; discriminate.

(** Whenever the first tool call can be indexed, the method returns the
    five items of the specification in their order. *)
Lemma to_messages_five_parts (s : ActionStep.t) (summary_mode return_memory : bool) :
  Spec.indexable s -> Spec.projects_in_order s summary_mode return_memory.
Proof.
  intros Hidx.
  unfold Spec.projects_in_order, Spec.projects_with, Spec.indexable in *.
  split_step s; destruct summary_mode, return_memory; cbn in *;
    try reflexivity; not_indexable Hidx.
Qed.

(** With an empty [tool_calls] and an error or an observation to
    report, indexing the first call raises. *)
Lemma to_messages_index_error (s : ActionStep.t) (summary_mode return_memory : bool) :
  ActionStep.tool_calls s = Some [] ->
  ActionStep.error s <> None \/ ActionStep.observations s <> None ->
  ActionStep.to_messages s summary_mode return_memory = Py.Raise Py.IndexError.
Proof.
  intros Htc Hany.
  split_step s; cbn in Htc, Hany; try discriminate;
    destruct summary_mode, return_memory; cbn; try reflexivity;
    destruct Hany as [Hn | Hn]; exfalso; apply Hn; reflexivity.
Qed.

(** A projection that returns could index its first tool call. *)
Lemma to_messages_returns_indexable (s : ActionStep.t)
  (summary_mode return_memory : bool) (messages : list Message.t) :
  ActionStep.to_messages s summary_mode return_memory = Py.Ok messages ->
  Spec.indexable s.
Proof.
  intros Hok Htc.
  destruct (ActionStep.error s) as [err|] eqn:He.
  - rewrite to_messages_index_error in Hok; [discriminate | exact Htc |].
    left. rewrite He. discriminate.
  - destruct (ActionStep.observations s) as [obs|] eqn:Ho; [|split; reflexivity].
    rewrite to_messages_index_error in Hok; [discriminate | exact Htc |].
    right. rewrite Ho. discriminate.
Qed.

Ltac projected_content :=
  first [ left; intros source Hsrc; discriminate Hsrc
        | right; eexists; left; reflexivity ].

Ltac one_projected :=
  first [ apply Forall_nil
        | apply Forall_cons; [projected_content | apply Forall_nil] ].

(** Every content of an [ActionStep] projection is a non-string value or
    a string starting with "Call id: ". *)
Lemma action_step_contents (s : ActionStep.t)
  (summary_mode return_memory : bool) (messages : list Message.t) :
  ActionStep.to_messages s summary_mode return_memory = Py.Ok messages ->
  Forall (fun m => Spec.projected (Message.content m)) messages.
Proof.
  intros Hok.
  pose proof (to_messages_returns_indexable _ _ _ _ Hok) as Hidx.
  rewrite (to_messages_five_parts s summary_mode return_memory Hidx) in Hok.
  injection Hok as <-.
  unfold Spec.memory_part, Spec.llm_part, Spec.tool_calls_part,
    Spec.error_or_observation_part, Spec.images_part, Spec.error_message,
    Spec.observation_message.
  rewrite !Forall_app. clear Hidx.
  destruct s as [am tcs st et sn err du out obs imgs ao]; cbn.
  repeat split.
  - destruct am, return_memory; one_projected.
  - destruct out, summary_mode; one_projected.
  - destruct tcs; one_projected.
  - destruct err, tcs as [[|tc tcs]|], obs; one_projected.
  - destruct imgs as [[|img imgs]|]; one_projected.
Qed.

(** C1, as amended.  For every [ActionStep] whose [tool_calls] is null or
    non-empty (or that has neither error nor observations), the fourth
    slot of the projection holds at most one message, never an error
    message and an observation message together: with an error, an
    assistant text message when [tool_calls] is null and a tool-response
    message starting with "Call id: " and the first call's id otherwise;
    without an error, the tool-response observation message exactly when
    [observations] and [tool_calls] are both present. *)
Theorem error_xor_observation_when_indexable
  (s : ActionStep.t) (summary_mode return_memory : bool) :
  Spec.indexable s ->
  Spec.error_xor_observation s summary_mode return_memory.
Proof.
  intros Hidx.
  exists (Spec.error_or_observation_part s).
  split; [apply to_messages_five_parts; exact Hidx|].
  unfold Spec.indexable in Hidx. clear summary_mode return_memory.
  destruct s as [am tcs st et sn err du out obs imgs ao].
  cbn in *. unfold Spec.error_or_observation_part. cbn.
  destruct err as [err|]; destruct tcs as [[|tc tcs]|]; destruct obs as [obs|];
    try (not_indexable Hidx); cbn;
    (split; [lia|]); split.
  all: try (intros e He; first [discriminate | injection He as <-]; split;
            intros Hn; first [discriminate | reflexivity
                             | exfalso; apply Hn; reflexivity
                             | eexists; eexists; split; reflexivity]).
  all: intros He; first [discriminate | split].
  all: try (split;
            [intros Hs; first [exfalso; apply Hs; reflexivity | split; discriminate]
            |intros [Ho Ht]; first [discriminate
                                   | exfalso; apply Ho; reflexivity
                                   | exfalso; apply Ht; reflexivity]]).
  all: intros Hs; first [exfalso; apply Hs; reflexivity
                        | eexists; eexists; eexists; repeat split; reflexivity].
Qed.

(** Each of the four plain items is one message behind its own guard. *)
Lemma part_guards (s : ActionStep.t) (summary_mode include_memory : bool) :
  (Spec.fired (Spec.memory_part s include_memory) = true <->
   ActionStep.agent_memory s <> None /\ include_memory = true)
  /\ (Spec.fired (Spec.llm_part s summary_mode) = true <->
      ActionStep.llm_output s <> None /\ summary_mode = false)
  /\ (Spec.fired (Spec.tool_calls_part s) = true <->
      ActionStep.tool_calls s <> None)
  /\ (Spec.fired (Spec.images_part s) = true <->
      Spec.entries (ActionStep.observations_images s) <> []).
Proof.
  unfold Spec.memory_part, Spec.llm_part, Spec.tool_calls_part, Spec.images_part.
  destruct s as [am tcs st et sn err du out obs imgs ao]; cbn.
  repeat split.
  all: try (intros [Ha Hb]); try intros Ha.
  all: destruct am as [am|]; destruct out as [out|]; destruct tcs as [tcs|];
    destruct imgs as [[|img imgs]|]; destruct summary_mode, include_memory;
    cbn in *; solve [reflexivity | discriminate | congruence].
Qed.

(** Any choice of items to fire is realised by some step and mode. *)
Lemma guards_independent (a : Any) (e : AgentError) (b1 b2 b3 b4 b5 : bool) :
  exists (s : ActionStep.t) (summary_mode include_memory : bool),
    Spec.indexable s
    /\ Spec.fired (Spec.memory_part s include_memory) = b1
    /\ Spec.fired (Spec.llm_part s summary_mode) = b2
    /\ Spec.fired (Spec.tool_calls_part s) = b3
    /\ Spec.fired (Spec.error_or_observation_part s) = b4
    /\ Spec.fired (Spec.images_part s) = b5.
Proof.
  exists (ActionStep.make
            (if b1 then Some [] else None)
            (if b3 then Some [ToolCall.make "tool" a "id"] else None)
            None None None
            (if b4 then Some e else None)
            None
            (if b2 then Some "out" else None)
            None
            (if b5 then Some ["image"] else None)
            a), false, true.
  unfold Spec.indexable.
  destruct b1, b2, b3, b4, b5; cbn; repeat split; discriminate.
Qed.

(** C2, as amended.  For every [ActionStep] whose projection can index
    its first tool call, and every mode, [to_messages] returns, in this
    order: the system message with the raw memory (iff memory is present
    and requested), the assistant message with the trimmed model output
    (iff present and not in summary mode), the assistant message with the
    rendering of the serialized tool calls (iff [tool_calls] is not null,
    empty or not), the error-or-observation message, and the user message
    with the observed images (iff there are some).  The guards are
    independent: any subset of the five, none included, fires for some
    step. *)
Theorem to_messages_fixed_order :
  (forall (s : ActionStep.t) (summary_mode return_memory : bool),
      Spec.indexable s ->
      ActionStep.to_messages s summary_mode return_memory
      = Py.Ok (Spec.memory_part s return_memory ++ Spec.llm_part s summary_mode
               ++ Spec.tool_calls_part s ++ Spec.error_or_observation_part s
               ++ Spec.images_part s))
  /\ (forall (s : ActionStep.t) (summary_mode return_memory : bool),
        (Spec.fired (Spec.memory_part s return_memory) = true <->
         ActionStep.agent_memory s <> None /\ return_memory = true)
        /\ (Spec.fired (Spec.llm_part s summary_mode) = true <->
            ActionStep.llm_output s <> None /\ summary_mode = false)
        /\ (Spec.fired (Spec.tool_calls_part s) = true <->
            ActionStep.tool_calls s <> None)
        /\ (Spec.fired (Spec.images_part s) = true <->
            Spec.entries (ActionStep.observations_images s) <> []))
  /\ (forall (a : Any) (e : AgentError) (b1 b2 b3 b4 b5 : bool),
        exists (s : ActionStep.t) (summary_mode return_memory : bool),
          Spec.indexable s
          /\ Spec.fired (Spec.memory_part s return_memory) = b1
          /\ Spec.fired (Spec.llm_part s summary_mode) = b2
          /\ Spec.fired (Spec.tool_calls_part s) = b3
          /\ Spec.fired (Spec.error_or_observation_part s) = b4
          /\ Spec.fired (Spec.images_part s) = b5).
Proof.
  split; [|split].
  - intros s summary_mode return_memory Hidx.
    apply (to_messages_five_parts s summary_mode return_memory Hidx).
  - apply part_guards.
  - apply guards_independent.
Qed.

(** C10.  [to_messages] returns a message sequence exactly when the
    first tool call can be indexed: with [tool_calls] the empty list and
    an error present, or the empty list, no error and observations
    present, reading [tool_calls[0]] raises [IndexError]; in every other
    case the method returns. *)
Theorem to_messages_total_iff_indexable
  (s : ActionStep.t) (summary_mode return_memory : bool) :
  (ActionStep.tool_calls s = Some [] ->
   ActionStep.error s <> None
   \/ (ActionStep.error s = None /\ ActionStep.observations s <> None) ->
   ActionStep.to_messages s summary_mode return_memory = Py.Raise Py.IndexError)
  /\ ((exists messages,
         ActionStep.to_messages s summary_mode return_memory = Py.Ok messages)
      <-> Spec.indexable s).
Proof.
  split; [|split].
  - intros Htc Hany. apply to_messages_index_error; [exact Htc|].
    destruct Hany as [He | [_ Ho]]; [left | right]; assumption.
  - intros [messages Hok].
    apply (to_messages_returns_indexable s _ _ messages Hok).
  - intros Hidx. eexists. apply (to_messages_five_parts s _ _ Hidx).
Qed.

End ActionStepProperties.

(** *** ActionStep.to_messages on concrete steps *)

Example error_without_tool_calls :
  @ActionStep.to_messages sample (sample_step None (Some "E") None None) true true
  = Py.Ok [Message.make ASSISTANT
             (Py.List [text_part (@ActionStep.message_content sample "E")])].
Proof. reflexivity. Qed.

Example error_with_tool_call :
  @ActionStep.to_messages sample
    (sample_step (Some [call_c1]) (Some "E") None None) true true
  = Py.Ok [Message.make ASSISTANT (Py.List [text_part "<repr>"]);
           Message.make TOOL_RESPONSE
             (Py.Str ("Call id: c1" ++ Py.newline
                      ++ @ActionStep.message_content sample "E"))].
Proof. reflexivity. Qed.

Example observation_without_tool_calls :
  @ActionStep.to_messages sample (sample_step None None (Some "obs") None) false true
  = Py.Ok [].
Proof. reflexivity. Qed.

Example empty_tool_calls_alone :
  @ActionStep.to_messages sample (sample_step (Some []) None None None) false true
  = Py.Ok [Message.make ASSISTANT (Py.List [text_part "<repr>"])].
Proof. reflexivity. Qed.

Lemma error_xor_observation_when_indexable_witness :
  @Spec.error_xor_observation sample
    (sample_step (Some [call_c1]) (Some "E") None None) false false.
Proof.
  apply (@error_xor_observation_when_indexable sample).
  intros Hempty. discriminate Hempty.
Defined.

(** C1 as stated fails on an [ActionStep] with [tool_calls = []],
    [observations = "obs"] and no error: both are non-null, yet no
    observation message is emitted, since the method raises. *)
Lemma observation_on_empty_tool_calls :
  let s := sample_step (Some []) None (Some "obs") None in
  ActionStep.error s = None
  /\ ActionStep.observations s <> None
  /\ ActionStep.tool_calls s <> None
  /\ @ActionStep.to_messages sample s false false = Py.Raise Py.IndexError
  /\ ~ @Spec.error_xor_observation sample s false false.
Proof.
  cbv zeta. repeat split; try discriminate.
  intros [slot [Hp _]]. unfold Spec.projects_with in Hp. discriminate Hp.
Qed.

Lemma to_messages_fixed_order_witness :
  @ActionStep.to_messages sample
    (sample_step (Some [call_c1]) None (Some "obs") (Some ["a"; "b"])) false false
  = Py.Ok [Message.make ASSISTANT (Py.List [text_part "<repr>"]);
           Message.make TOOL_RESPONSE
             (Py.Str ("Call id: c1" ++ Py.newline ++ "Observation:"
                      ++ Py.newline ++ "obs"));
           Message.make USER
             (Py.List [text_part "Here are the observed images:";
                       image_part "a"; image_part "b"])].
Proof.
  apply (proj1 (@to_messages_fixed_order sample)).
  intros Hempty. discriminate Hempty.
Defined.

(** C2 as stated fails on an [ActionStep] with [tool_calls = []], an
    error and one observed image: the guards of items 3 and 5 hold,
    yet the method raises and returns no message, whatever the fourth
    item is taken to be. *)
Lemma order_on_empty_tool_calls :
  let s := sample_step (Some []) (Some "E") None (Some ["a"]) in
  Spec.fired (@Spec.tool_calls_part sample s) = true
  /\ Spec.fired (@Spec.images_part sample s) = true
  /\ @ActionStep.to_messages sample s false false = Py.Raise Py.IndexError
  /\ (forall slot, ~ @Spec.projects_with sample slot s false false).
Proof.
  cbv zeta. repeat split.
  intros slot Hp. unfold Spec.projects_with in Hp. discriminate Hp.
Qed.

Lemma to_messages_total_iff_indexable_witness :
  @ActionStep.to_messages sample
    (sample_step (Some []) (Some "E") None None) false false
  = Py.Raise Py.IndexError
  /\ exists messages,
       @ActionStep.to_messages sample
         (sample_step (Some [call_c1]) (Some "E") None None) false false
       = Py.Ok messages.
Proof.
  split.
  - apply (proj1 (@to_messages_total_iff_indexable sample
                    (sample_step (Some []) (Some "E") None None) false false)).
    + reflexivity.
    + left. discriminate.
  - apply (proj2 (@to_messages_total_iff_indexable sample
                    (sample_step (Some [call_c1]) (Some "E") None None) false false)).
    intros Hempty. discriminate Hempty.
Defined.

(** ** TaskStep.to_messages and PlanningStep.to_messages *)

Lemma append_images_map (content : list Py.val) (images : list string) :
  TaskStep.append_images content images = content ++ map image_part images.
Proof.
  revert content.
  induction images as [|image rest IH]; intros content; cbn.
  - rewrite app_nil_r. reflexivity.
  - rewrite IH, <- app_assoc. reflexivity.
Qed.

(** C7.  For every task string and every list of task images (absent,
    empty or not), in every mode, [TaskStep.to_messages] returns exactly
    one user message whose content is the text part "New task:\n" + task
    followed by one image part per task image, in order; with the images
    "a" and "b" the content has exactly three parts. *)
Theorem task_step_one_user_message `{Collaborators} :
  (forall (k : TaskStep.t) (summary_mode include_memory : bool),
      TaskStep.to_messages k summary_mode
      = [Message.make USER
           (Py.List (text_part ("New task:" ++ Py.newline ++ TaskStep.task k)
                     :: map image_part (Spec.entries (TaskStep.task_images k))))]
      /\ AgentStepLog.to_messages (AgentStepLog.Task k) summary_mode include_memory
         = Py.Ok (TaskStep.to_messages k summary_mode))
  /\ (forall (T : string) (summary_mode : bool),
        TaskStep.to_messages (TaskStep.make T (Some ["a"; "b"])) summary_mode
        = [Message.make USER
             (Py.List [text_part ("New task:" ++ Py.newline ++ T);
                       image_part "a"; image_part "b"])]).
Proof.
  split.
  - intros [task [[|image images]|]] summary_mode include_memory;
      (split; [|reflexivity]); unfold TaskStep.to_messages; cbn; try reflexivity.
    rewrite append_images_map. reflexivity.
  - intros T summary_mode. reflexivity.
Qed.

(** C8.  For every [PlanningStep]: in summary mode [to_messages] returns
    exactly one assistant message, with text "[FACTS LIST]:\n" +
    trim(facts); otherwise exactly two assistant messages, the facts
    message and then one with text "[PLAN]:\n" + trim(plan); the memory
    flag changes nothing. *)
Theorem planning_step_facts_then_plan `{Collaborators}
  (p : PlanningStep.t) (summary_mode include_memory : bool) :
  PlanningStep.to_messages p true
  = [Message.make ASSISTANT
       (Py.Str ("[FACTS LIST]:" ++ Py.newline ++ Py.strip (PlanningStep.facts p)))]
  /\ PlanningStep.to_messages p false
     = [Message.make ASSISTANT
          (Py.Str ("[FACTS LIST]:" ++ Py.newline ++ Py.strip (PlanningStep.facts p)));
        Message.make ASSISTANT
          (Py.Str ("[PLAN]:" ++ Py.newline ++ Py.strip (PlanningStep.plan p)))]
  /\ AgentStepLog.to_messages (AgentStepLog.Planning p) summary_mode include_memory
     = Py.Ok (PlanningStep.to_messages p summary_mode).
Proof.
  repeat split.
Qed.

Example planning_step_example :
  PlanningStep.to_messages (PlanningStep.make " P " "F ") true
  = [Message.make ASSISTANT (Py.Str ("[FACTS LIST]:" ++ Py.newline ++ "F"))]
  /\ PlanningStep.to_messages (PlanningStep.make " P " "F ") false
     = [Message.make ASSISTANT (Py.Str ("[FACTS LIST]:" ++ Py.newline ++ "F"));
        Message.make ASSISTANT (Py.Str ("[PLAN]:" ++ Py.newline ++ "P"))].
Proof. split; reflexivity. Qed.

(** ** The trace store *)

Section StoreProperties.
Context `{Collaborators}.

(** C9.  [reset()] empties the step list and leaves the raw model-output
    list (and the level and the console) as they were. *)
Theorem reset_clears_steps_only (self : AgentLogger.t) :
  AgentLogger.steps (AgentLogger.reset self) = []
  /\ AgentLogger.chat_messages (AgentLogger.reset self)
     = AgentLogger.chat_messages self
  /\ AgentLogger.level (AgentLogger.reset self) = AgentLogger.level self
  /\ AgentLogger.console (AgentLogger.reset self) = AgentLogger.console self.
Proof.
  repeat split.
Qed.

(** C6.  [log_step] with an explicit position fails its assertion for
    every position other than 0; at position 0 it returns a store whose
    head is the given step and whose every other element, at every
    index from 1 on, is the one that was there, the raw-output list
    being untouched. *)
Theorem log_step_position (self : AgentLogger.t) (step : AgentStepLog.t)
  (position : Z) :
  (position <> 0%Z ->
   AgentLogger.log_step self step (Some position)
   = Py.Raise (Py.AssertionError "Position should only be 0 for system prompt."))
  /\ exists self',
       AgentLogger.log_step self step (Some 0%Z) = Py.Ok self'
       /\ AgentLogger.steps self' = step :: tl (AgentLogger.steps self)
       /\ nth_error (AgentLogger.steps self') 0 = Some step
       /\ (forall i, nth_error (AgentLogger.steps self') (S i)
                     = nth_error (AgentLogger.steps self) (S i))
       /\ length (AgentLogger.steps self')
          = Nat.max 1 (length (AgentLogger.steps self))
       /\ AgentLogger.chat_messages self' = AgentLogger.chat_messages self.
Proof.
  split.
  - intros Hne. unfold AgentLogger.log_step.
    destruct (Z.eqb_spec position 0) as [Heq | _]; [contradiction | reflexivity].
  - eexists. split; [reflexivity|]. cbn.
    destruct (AgentLogger.steps self) as [|old rest]; cbn.
    + repeat split. intros [|i]; reflexivity.
    + repeat split.
Qed.

(** [log_step] without a position appends. *)
Lemma log_step_append (self : AgentLogger.t) (step : AgentStepLog.t) :
  exists self',
    AgentLogger.log_step self step None = Py.Ok self'
    /\ AgentLogger.steps self' = AgentLogger.steps self ++ [step].
Proof.
  eexists. split; reflexivity.
Qed.

(** No step class has an [items] attribute. *)
Lemma call_items_raises (log : AgentStepLog.t) :
  AgentStepLog.call_method log "items"
  = Py.Raise (Py.AttributeError (AgentStepLog.class_name log) "items").
Proof.
  destruct log; reflexivity.
Qed.

(** C3, the code's side.  On a store that holds at least one step,
    [get_succinct_logs] returns nothing: looking up [items] on the first
    stored step raises [AttributeError]. *)
Theorem get_succinct_logs_raises (self : AgentLogger.t)
  (step : AgentStepLog.t) (rest : list AgentStepLog.t) :
  AgentLogger.get_succinct_logs (AgentLogger.set_steps self (step :: rest))
  = Py.Raise (Py.AttributeError (AgentStepLog.class_name step) "items").
Proof.
  unfold AgentLogger.get_succinct_logs. cbn.
  unfold AgentLogger.succinct. rewrite call_items_raises. reflexivity.
Qed.

(** The view the specification describes never holds an [agent_memory]
    key. *)
Lemma succinct_view_has_no_agent_memory (steps : list AgentStepLog.t) :
  Forall (fun d => ~ In "agent_memory" (map fst d)) (Spec.succinct_view steps).
Proof.
  unfold Spec.succinct_view. apply Forall_forall. intros d Hd.
  apply in_map_iff in Hd. destruct Hd as [step [<- _]].
  intros Hin. apply in_map_iff in Hin. destruct Hin as [[k v] [Hk Hf]].
  apply filter_In in Hf. destruct Hf as [_ Hf]. cbn in Hk, Hf. subst k.
  discriminate Hf.
Qed.

End StoreProperties.

Lemma log_step_position_witness :
  @AgentLogger.log_step sample
    (@AgentLogger.init sample INFO)
    (@AgentStepLog.SystemPrompt sample (SystemPromptStep.make "prompt"))
    (Some 3%Z)
  = Py.Raise (Py.AssertionError "Position should only be 0 for system prompt.").
Proof.
  apply (proj1 (@log_step_position sample _ _ 3%Z)). discriminate.
Defined.

Example log_step_replaces_head :
  let before :=
    @AgentLogger.set_steps sample (@AgentLogger.init sample INFO)
      [AgentStepLog.Planning (PlanningStep.make "P" "F");
       AgentStepLog.Task (TaskStep.make "T" None)] in
  exists after,
    AgentLogger.log_step before
      (AgentStepLog.SystemPrompt (SystemPromptStep.make "prompt")) (Some 0%Z)
    = Py.Ok after
    /\ AgentLogger.steps after
       = [AgentStepLog.SystemPrompt (SystemPromptStep.make "prompt");
          AgentStepLog.Task (TaskStep.make "T" None)].
Proof. eexists. split; reflexivity. Qed.

(** C3 at a store holding one [ActionStep] whose memory is set: the
    method raises, where the specification's view is the export
    without the [agent_memory] key. *)
Example get_succinct_logs_on_action_step :
  let step :=
    @AgentStepLog.Action sample
      (@ActionStep.make sample (Some [[("role", "user")]]) None None None
         (Some 1%Z) None None (Some "out") None None tt) in
  @AgentLogger.get_succinct_logs sample
    (@AgentLogger.set_steps sample (@AgentLogger.init sample INFO) [step])
  = Py.Raise (Py.AttributeError "ActionStep" "items")
  /\ @Spec.succinct_view sample [step]
     = [[("tool_calls", Py.List []); ("start_time", Py.None_);
         ("end_time", Py.None_); ("step", Py.Int 1); ("error", Py.None_);
         ("duration", Py.None_); ("llm_output", Py.Str "out");
         ("observations", Py.None_); ("action_output", Py.None_)]].
Proof. split; reflexivity. Qed.

(** On the empty store the method returns the empty list. *)
Example get_succinct_logs_on_empty_store :
  @AgentLogger.get_succinct_logs sample (@AgentLogger.init sample INFO) = Py.Ok [].
Proof. reflexivity. Qed.

(** ** replay *)

Section ReplayProperties.
Context `{Collaborators}.

(** C4, the code's side.  [replay] never gets to read a stored step: an
    [AgentLogger] has no attribute [logger], so evaluating
    [self.logger.steps] raises [AttributeError] before anything is
    collected or written. *)
Theorem replay_raises_attribute_error (self : AgentLogger.t) (with_memory : bool) :
  AgentLogger.replay self with_memory
  = (self, Some (Py.AttributeError "AgentLogger" "logger")).
Proof.
  reflexivity.
Qed.

(** C5, the code's side.  [replay] shows no message at all, degraded
    or not: for every logger and every flag the call ends with the
    [AttributeError] of the missing [self.logger], and the console holds
    exactly what it held before, so no stored message is ever written
    as an item, whatever its content. *)
Theorem replay_raises_before_rendering (self : AgentLogger.t) (with_memory : bool) :
  snd (AgentLogger.replay self with_memory)
  = Some (Py.AttributeError "AgentLogger" "logger")
  /\ AgentLogger.console (fst (AgentLogger.replay self with_memory))
     = AgentLogger.console self
  /\ AgentLogger.collect self with_memory
     = Py.Raise (Py.AttributeError "AgentLogger" "logger").
Proof.
  repeat split.
Qed.

(** Past that lookup, the loop calls [to_messages] without its required
    [summary_mode]: on a non-empty step list the first call raises
    [TypeError]. *)
Lemma extend_all_missing_summary_mode (memory : list Message.t)
  (step_log : AgentStepLog.t) (rest : list AgentStepLog.t) (with_memory : bool) :
  AgentLogger.extend_all memory (step_log :: rest) with_memory
  = Py.Raise (Py.TypeError
                "to_messages() missing 1 required positional argument: 'summary_mode'").
Proof.
  destruct step_log; reflexivity.
Qed.

(** [eval] refuses whatever is not a string, so a content that already
    is a list of parts always takes the fallback. *)
Lemma eval_refuses_non_strings (content : Py.val) :
  (forall source, content <> Py.Str source) ->
  AgentLogger.eval content = RaisesException.
Proof.
  intros Hns. destruct content; try reflexivity.
  exfalso. apply (Hns s). reflexivity.
Qed.

(** When no message can be interpreted, the loop writes one block per
    message and ends without an exception. *)
Lemma render_all_degraded (memory : list Message.t) (ix : nat) :
  Forall (fun m => AgentLogger.eval (Message.content m) = RaisesException) memory ->
  snd (AgentLogger.render memory ix) = None
  /\ length (fst (AgentLogger.render memory ix)) = length memory.
Proof.
  intros Hall. revert ix.
  induction Hall as [|m rest Hm _ IH]; intros ix; cbn.
  - split; reflexivity.
  - destruct (AgentLogger.turn (Py.strip (role_value (Message.role m))) ix)
      as [theme ix'] eqn:Hturn.
    unfold AgentLogger.interpret. rewrite Hm. cbn.
    specialize (IH ix').
    destruct (AgentLogger.render rest ix') as [written e]. cbn in *.
    destruct IH as [-> ->]. split; reflexivity.
Qed.

(** Every content a stored step projects is of the projected kind. *)
Lemma step_contents (step : AgentStepLog.t) (summary_mode include_memory : bool)
  (messages : list Message.t) :
  AgentStepLog.to_messages step summary_mode include_memory = Py.Ok messages ->
  Forall (fun m => Spec.projected (Message.content m)) messages.
Proof.
  destruct step as [a | p | k | sp]; cbn; intros Hok.
  - apply (action_step_contents a summary_mode include_memory messages Hok).
  - injection Hok as <-. unfold PlanningStep.to_messages.
    destruct summary_mode; cbn.
    + apply Forall_cons; [|apply Forall_nil].
      right. eexists. right. left. reflexivity.
    + apply Forall_cons; [|apply Forall_cons; [|apply Forall_nil]];
        right; eexists; right; [left | right]; reflexivity.
  - injection Hok as <-. apply Forall_cons; [|apply Forall_nil].
    left. intros src Hsrc. discriminate Hsrc.
  - injection Hok as <-. unfold SystemPromptStep.to_messages.
    destruct summary_mode; cbn; [apply Forall_nil|].
    apply Forall_cons; [|apply Forall_nil].
    left. intros src Hsrc. discriminate Hsrc.
Qed.

Lemma project_all_contents (steps : list AgentStepLog.t)
  (summary_mode include_memory : bool) (memory : list Message.t) :
  Spec.project_all steps summary_mode include_memory = Py.Ok memory ->
  Forall (fun m => Spec.projected (Message.content m)) memory.
Proof.
  revert memory.
  induction steps as [|step rest IH]; intros memory; cbn [Spec.project_all].
  - intros Hok. injection Hok as <-. constructor.
  - destruct (AgentStepLog.to_messages step summary_mode include_memory)
      as [messages|e] eqn:Hstep; cbn [Py.bind]; [|discriminate].
    destruct (Spec.project_all rest summary_mode include_memory)
      as [more|e] eqn:Hrest; cbn [Py.bind]; [|discriminate].
    intros Hok. injection Hok as <-. apply Forall_app. split.
    + apply (step_contents step summary_mode include_memory messages Hstep).
    + apply IH. reflexivity.
Qed.

(** Where [eval] refuses the three prefixes, no projected content can be
    interpreted. *)
Lemma projected_uninterpretable (c : Py.val) :
  Spec.eval_refuses_prefixes -> Spec.projected c ->
  AgentLogger.eval c = RaisesException.
Proof.
  intros Hev [Hns | [tail [-> | [-> | ->]]]].
  - apply eval_refuses_non_strings. exact Hns.
  - apply (Hev tail).
  - apply (Hev tail).
  - apply (Hev tail).
Qed.

(** Rendering the projection of any stored steps then raises nothing
    and writes one block per message. *)
Lemma render_projection_never_raises (steps : list AgentStepLog.t)
  (summary_mode include_memory : bool) (memory : list Message.t) (ix : nat) :
  Spec.eval_refuses_prefixes ->
  Spec.project_all steps summary_mode include_memory = Py.Ok memory ->
  snd (AgentLogger.render memory ix) = None
  /\ length (fst (AgentLogger.render memory ix)) = length memory.
Proof.
  intros Hev Hok. apply render_all_degraded.
  pose proof (project_all_contents _ _ _ _ Hok) as Hall.
  apply Forall_forall. intros m Hm.
  apply projected_uninterpretable; [exact Hev|].
  revert m Hm. apply Forall_forall. exact Hall.
Qed.


End ReplayProperties.


(** C5 at a store holding one [PlanningStep], whose two messages have
    string contents that [eval] cannot interpret: the rendering loop
    alone would write each as one block with the raw content, but
    [replay] raises before the loop and writes nothing. *)
Example replay_on_uninterpretable_content :
  let store :=
    @AgentLogger.set_steps sample (@AgentLogger.init sample INFO)
      [AgentStepLog.Planning (PlanningStep.make "P" "F")] in
  @AgentLogger.render sample
    (PlanningStep.to_messages (PlanningStep.make "P" "F") false) 0
  = ([AgentLogger.Block "ASSISTANT, STEP 1, SUBSTEP 1/1"
        ("[FACTS LIST]:" ++ Py.newline ++ "F") "monokai";
      AgentLogger.Block "ASSISTANT, STEP 2, SUBSTEP 1/1"
        ("[PLAN]:" ++ Py.newline ++ "P") "monokai"],
     None)
  /\ snd (@AgentLogger.replay sample store false)
     = Some (Py.AttributeError "AgentLogger" "logger")
  /\ AgentLogger.console (fst (@AgentLogger.replay sample store false)) = [].
Proof. repeat split. Qed.

(** C4 at a store holding one [PlanningStep]: [replay] raises and writes
    nothing, where the specification has it consume the two messages of
    the step's projection. *)
Example replay_on_planning_step :
  let store :=
    @AgentLogger.set_steps sample (@AgentLogger.init sample INFO)
      [AgentStepLog.Planning (PlanningStep.make "P" "F")] in
  @AgentLogger.replay sample store false
  = (store, Some (Py.AttributeError "AgentLogger" "logger"))
  /\ AgentLogger.console (fst (@AgentLogger.replay sample store false)) = []
  /\ @Spec.project_all sample (AgentLogger.steps store) false false
     = Py.Ok [Message.make ASSISTANT (Py.Str ("[FACTS LIST]:" ++ Py.newline ++ "F"));
              Message.make ASSISTANT (Py.Str ("[PLAN]:" ++ Py.newline ++ "P"))].
Proof. repeat split. Qed.

(** * Further properties of the code *)

(** ** Projections, beyond the five items *)

Lemma subsequence_refl {A : Type} (l : list A) : subsequence l l.
Proof.
  induction l as [|x l IH]; [apply subsequence_nil | apply subsequence_keep, IH].
Qed.

Lemma subsequence_length {A : Type} (l1 l2 : list A) :
  subsequence l1 l2 -> length l1 <= length l2.
Proof.
  induction 1; cbn; lia.
Qed.

Section MoreProjections.
Context `{Collaborators}.

Ltac fields am tcs err out obs imgs :=
  destruct am as [am|]; destruct tcs as [[|tc tcs]|];
  destruct err as [err|]; destruct out as [out|]; destruct obs as [obs|];
  destruct imgs as [[|img imgs]|].

Ltac subseq :=
  repeat first [ apply subsequence_nil
               | apply subsequence_keep
               | apply subsequence_drop ].

(** X1.  An [ActionStep] projects to no message at all exactly when
    none of its guards holds: no memory or memory not requested, no
    model output or summary mode, [tool_calls] null, no error, no
    observed image.  [observations] plays no part: without tool calls
    it is never shown. *)
Theorem action_step_projects_nothing_iff (s : ActionStep.t)
  (summary_mode return_memory : bool) :
  ActionStep.to_messages s summary_mode return_memory = Py.Ok []
  <-> (ActionStep.agent_memory s = None \/ return_memory = false)
      /\ (ActionStep.llm_output s = None \/ summary_mode = true)
      /\ ActionStep.tool_calls s = None
      /\ ActionStep.error s = None
      /\ Spec.entries (ActionStep.observations_images s) = [].
Proof.
  destruct s as [am tcs st et sn err du out obs imgs ao].
  fields am tcs err out obs imgs; destruct summary_mode, return_memory; cbn;
    (split;
     [ intros Hnone; first [ discriminate Hnone
                           | repeat split; first [ reflexivity
                                                 | left; reflexivity
                                                 | right; reflexivity ] ]
     | intros (Hm & Hl & Ht & He & Hi);
       first [ reflexivity | discriminate
             | destruct Hm; discriminate | destruct Hl; discriminate ] ]).
Qed.

(** X2.  When an error is set, the observations never reach the
    messages: the projection, or its failure, is the same whatever
    [observations] holds. *)
Theorem error_hides_observations
  (am : option (list (list (string * string)))) (tcs : option (list ToolCall.t))
  (st et : option spec_float) (sn : option Z) (e : AgentError)
  (du : option spec_float) (out obs obs' : option string)
  (imgs : option (list string)) (ao : Any) (summary_mode return_memory : bool) :
  ActionStep.to_messages
    (ActionStep.make am tcs st et sn (Some e) du out obs imgs ao)
    summary_mode return_memory
  = ActionStep.to_messages
      (ActionStep.make am tcs st et sn (Some e) du out obs' imgs ao)
      summary_mode return_memory.
Proof.
  reflexivity.
Qed.

(** Timing, step number and action output never reach the
    messages: two steps that agree on memory, tool calls, error, model
    output, observations and images project alike. *)
Theorem projection_ignores_bookkeeping
  (am : option (list (list (string * string)))) (tcs : option (list ToolCall.t))
  (err : option AgentError) (out obs : option string)
  (imgs : option (list string))
  (st et du st' et' du' : option spec_float) (sn sn' : option Z) (ao ao' : Any)
  (summary_mode return_memory : bool) :
  ActionStep.to_messages
    (ActionStep.make am tcs st et sn err du out obs imgs ao)
    summary_mode return_memory
  = ActionStep.to_messages
      (ActionStep.make am tcs st' et' sn' err du' out obs imgs ao')
      summary_mode return_memory.
Proof.
  reflexivity.
Qed.

(** X3.  Summary mode only leaves messages out.  For every stored step
    the summary projection is the full projection with some messages
    removed, in the same order; and the two modes fail together, with
    the same exception. *)
Theorem summary_is_subsequence (step : AgentStepLog.t) (include_memory : bool) :
  match AgentStepLog.to_messages step true include_memory,
        AgentStepLog.to_messages step false include_memory with
  | Py.Ok short, Py.Ok full => subsequence short full
  | Py.Raise e1, Py.Raise e2 => e1 = e2
  | _, _ => False
  end.
Proof.
  destruct step as [a | p | k | sp].
  - destruct a as [am tcs st et sn err du out obs imgs ao].
    fields am tcs err out obs imgs; destruct include_memory; cbn;
      first [ reflexivity | subseq ].
  - cbn. subseq.
  - cbn. apply subsequence_refl.
  - cbn. subseq.
Qed.

(** X4.  The memory flag only adds the memory echo.  For every stored
    step the projection without memory is the projection with memory
    minus messages, in the same order; for the three other step kinds
    the two are equal; and the flag does not change whether the
    projection fails. *)
Theorem memory_flag_only_adds (step : AgentStepLog.t) (summary_mode : bool) :
  match AgentStepLog.to_messages step summary_mode false,
        AgentStepLog.to_messages step summary_mode true with
  | Py.Ok without, Py.Ok with_memory =>
      subsequence without with_memory
      /\ match step with
         | AgentStepLog.Action a =>
             ActionStep.agent_memory a = None -> without = with_memory
         | _ => without = with_memory
         end
  | Py.Raise e1, Py.Raise e2 => e1 = e2
  | _, _ => False
  end.
Proof.
  destruct step as [a | p | k | sp].
  - destruct a as [am tcs st et sn err du out obs imgs ao].
    fields am tcs err out obs imgs; destruct summary_mode; cbn;
      first [ reflexivity
            | split; [subseq | intros Hnone; first [reflexivity | discriminate Hnone]] ].
  - cbn. split; [apply subsequence_refl | reflexivity].
  - cbn. split; [apply subsequence_refl | reflexivity].
  - cbn. split; [apply subsequence_refl | reflexivity].
Qed.

(** X5.  An absent list of images and an empty one project alike, for
    a [TaskStep] and for an [ActionStep]: the guards test the truth
    value of the list. *)
Theorem empty_images_are_absent_images :
  (forall (task : string) (summary_mode : bool),
      TaskStep.to_messages (TaskStep.make task (Some [])) summary_mode
      = TaskStep.to_messages (TaskStep.make task None) summary_mode)
  /\ (forall am tcs st et sn err du out obs ao (summary_mode return_memory : bool),
        ActionStep.to_messages
          (ActionStep.make am tcs st et sn err du out obs (Some []) ao)
          summary_mode return_memory
        = ActionStep.to_messages
            (ActionStep.make am tcs st et sn err du out obs None ao)
            summary_mode return_memory).
Proof.
  split; intros; reflexivity.
Qed.

End MoreProjections.

(** ** Exports and calls *)

Section ExportsAndCalls.
Context `{Collaborators}.

Ltac fields am tcs err out obs imgs :=
  destruct am as [am|]; destruct tcs as [[|tc tcs]|];
  destruct err as [err|]; destruct out as [out|]; destruct obs as [obs|];
  destruct imgs as [[|img imgs]|].

(** X6.  [ActionStep.dict()] is lossy where [to_messages] is not.  The
    export has the same ten keys for every step; its fifth entry holds
    [step_number] (None when absent) under the key [step]; it has no
    key for [observations_images], which it never reads; its second
    entry, [tool_calls], is the list of the calls' exports, and is the
    empty list both for a null [tool_calls] and for an empty one,
    although the two never project alike. *)
Theorem action_step_dict_is_lossy
  (am : option (list (list (string * string))))
  (st et : option spec_float) (sn : option Z) (err : option AgentError)
  (du : option spec_float) (out obs : option string)
  (imgs imgs' : option (list string)) (ao : Any)
  (tcs : option (list ToolCall.t)) (summary_mode return_memory : bool) :
  map fst (ActionStep.dict (ActionStep.make am tcs st et sn err du out obs imgs ao))
  = ["agent_memory"; "tool_calls"; "start_time"; "end_time"; "step"; "error";
     "duration"; "llm_output"; "observations"; "action_output"]
  /\ nth_error
       (ActionStep.dict (ActionStep.make am tcs st et sn err du out obs imgs ao)) 4
     = Some ("step", match sn with
                     | Some n => Py.Int n
                     | None => Py.None_
                     end)
  /\ nth_error
       (ActionStep.dict (ActionStep.make am tcs st et sn err du out obs imgs ao)) 1
     = Some ("tool_calls", Py.List (map ToolCall.dict (Spec.entries tcs)))
  /\ nth_error
       (ActionStep.dict (ActionStep.make am None st et sn err du out obs imgs ao)) 1
     = Some ("tool_calls", Py.List [])
  /\ nth_error
       (ActionStep.dict (ActionStep.make am (Some []) st et sn err du out obs imgs ao)) 1
     = Some ("tool_calls", Py.List [])
  /\ ActionStep.dict (ActionStep.make am tcs st et sn err du out obs imgs ao)
     = ActionStep.dict (ActionStep.make am tcs st et sn err du out obs imgs' ao)
  /\ ActionStep.dict (ActionStep.make am None st et sn err du out obs imgs ao)
     = ActionStep.dict (ActionStep.make am (Some []) st et sn err du out obs imgs ao)
  /\ ActionStep.to_messages
       (ActionStep.make am None st et sn err du out obs imgs ao)
       summary_mode return_memory
     <> ActionStep.to_messages
          (ActionStep.make am (Some []) st et sn err du out obs imgs ao)
          summary_mode return_memory.
Proof.
  split; [reflexivity|].
  split; [destruct sn; reflexivity|].
  split; [destruct tcs as [[|tc rest]|]; reflexivity|].
  split; [reflexivity|]. split; [reflexivity|].
  split; [reflexivity|]. split; [reflexivity|].
  clear tcs imgs'.
  destruct am as [am|]; destruct err as [err|]; destruct out as [out|];
    destruct obs as [obs|]; destruct imgs as [[|img imgs]|];
    destruct summary_mode, return_memory; cbn; intros Heq;
    first [ discriminate Heq
          | apply (f_equal (fun r => match r with
                                     | Py.Ok l => length l
                                     | Py.Raise _ => 0
                                     end)) in Heq;
            cbn in Heq; discriminate Heq ].
Qed.

(** X7.  The envelope [ToolCall.dict()] builds keeps the call apart:
    two calls with the same export have the same id, the same name and
    the same serialized arguments. *)
Theorem tool_call_dict_injective (a b : ToolCall.t) :
  ToolCall.dict a = ToolCall.dict b ->
  ToolCall.id a = ToolCall.id b
  /\ ToolCall.name a = ToolCall.name b
  /\ make_json_serializable (ToolCall.arguments a)
     = make_json_serializable (ToolCall.arguments b).
Proof.
  unfold ToolCall.dict. intros Heq.
  injection Heq as Hid Hname Hargs. repeat split; assumption.
Qed.

Lemma mem_In (name : string) (names : list string) :
  AgentStepLog.mem name names = true <-> In name names.
Proof.
  unfold AgentStepLog.mem. rewrite existsb_exists. split.
  - intros [x [Hin Heq]]. apply String.eqb_eq in Heq. subst x. exact Hin.
  - intros Hin. exists name. split; [exact Hin | apply String.eqb_refl].
Qed.

Lemma mem_not_In (name : string) (names : list string) :
  ~ In name names -> AgentStepLog.mem name names = false.
Proof.
  intros Hnot. destruct (AgentStepLog.mem name names) eqn:Hmem; [|reflexivity].
  exfalso. apply Hnot, mem_In, Hmem.
Qed.

(** A call that is not well formed raises [TypeError]. *)
Lemma well_formed_raises_type_error (kw : AgentStepLog.kwargs) (e : Py.exn) :
  AgentStepLog.well_formed kw = Py.Raise e -> exists msg, e = Py.TypeError msg.
Proof.
  unfold AgentStepLog.well_formed.
  destruct (AgentStepLog.mem "self" (map fst kw)).
  - intros He. injection He as <-. eexists. reflexivity.
  - destruct (AgentStepLog.distinct (map fst kw)); [discriminate|].
    intros He. injection He as <-. eexists. reflexivity.
Qed.

(** A further keyword, not [self] and not passed already, keeps a call
    well formed, or ill formed. *)
Lemma well_formed_cons (kw : AgentStepLog.kwargs) (extra : string) (value : bool) :
  extra <> "self" -> ~ In extra (map fst kw) ->
  AgentStepLog.well_formed ((extra, value) :: kw) = AgentStepLog.well_formed kw.
Proof.
  intros Hself Hnew. unfold AgentStepLog.well_formed.
  change (map fst ((extra, value) :: kw)) with (extra :: map fst kw).
  change (AgentStepLog.mem "self" (extra :: map fst kw))
    with (("self" =? extra) || AgentStepLog.mem "self" (map fst kw))%bool.
  change (AgentStepLog.distinct (extra :: map fst kw))
    with (negb (AgentStepLog.mem extra (map fst kw))
          && AgentStepLog.distinct (map fst kw))%bool.
  destruct (String.eqb_spec "self" extra) as [Heq | _];
    [exfalso; apply Hself; symmetry; exact Heq|].
  rewrite (mem_not_In extra (map fst kw) Hnew). reflexivity.
Qed.

(** X8.  How the step classes bind keyword arguments.  A call of
    [to_messages] that does not pass [summary_mode], or that passes
    [self] as a keyword, raises [TypeError] for every step; the three
    classes with a catch-all accept any further keyword (other than
    [self], and not passed already) and ignore it, where [ActionStep]
    refuses every keyword other than its two parameters. *)
Theorem to_messages_keyword_binding (step : AgentStepLog.t)
  (kw : AgentStepLog.kwargs) (extra : string) (value : bool) :
  (AgentStepLog.keyword "summary_mode" kw = None ->
   exists msg, AgentStepLog.call_to_messages step kw = Py.Raise (Py.TypeError msg))
  /\ (In "self" (map fst kw) ->
      exists msg, AgentStepLog.call_to_messages step kw = Py.Raise (Py.TypeError msg))
  /\ (extra <> "summary_mode" -> extra <> "self" -> ~ In extra (map fst kw) ->
      match step with
      | AgentStepLog.Action _ =>
          extra <> "return_memory" ->
          exists msg,
            AgentStepLog.call_to_messages step ((extra, value) :: kw)
            = Py.Raise (Py.TypeError msg)
      | _ =>
          AgentStepLog.call_to_messages step ((extra, value) :: kw)
          = AgentStepLog.call_to_messages step kw
      end).
Proof.
  split; [|split].
  - intros Hnone. unfold AgentStepLog.call_to_messages.
    destruct (AgentStepLog.well_formed kw) as [[]|e] eqn:Hwf; cbn [Py.bind].
    + destruct step as [a | p | k | sp].
      * unfold AgentStepLog.only.
        destruct (forallb _ kw); cbn [Py.bind]; [|eexists; reflexivity].
        unfold AgentStepLog.required. rewrite Hnone. cbn. eexists. reflexivity.
      * unfold AgentStepLog.required. rewrite Hnone. cbn. eexists. reflexivity.
      * unfold AgentStepLog.required. rewrite Hnone. cbn. eexists. reflexivity.
      * unfold AgentStepLog.required. rewrite Hnone. cbn. eexists. reflexivity.
    + destruct (well_formed_raises_type_error kw e Hwf) as [msg ->].
      exists msg. reflexivity.
  - intros Hself. unfold AgentStepLog.call_to_messages, AgentStepLog.well_formed.
    rewrite (proj2 (mem_In "self" (map fst kw)) Hself). cbn. eexists. reflexivity.
  - intros Hsm Hself Hnew.
    assert (Hskip : AgentStepLog.required "summary_mode" ((extra, value) :: kw)
                    = AgentStepLog.required "summary_mode" kw).
    { unfold AgentStepLog.required. cbn.
      destruct (String.eqb_spec extra "summary_mode") as [Heq | _];
        [contradiction | reflexivity]. }
    unfold AgentStepLog.call_to_messages.
    rewrite (well_formed_cons kw extra value Hself Hnew).
    destruct step as [a | p | k | sp]; try (rewrite Hskip; reflexivity).
    intros Hrm.
    destruct (AgentStepLog.well_formed kw) as [[]|e] eqn:Hwf; cbn [Py.bind].
    + unfold AgentStepLog.only. cbn.
      destruct (String.eqb_spec extra "summary_mode") as [Heq | _];
        [contradiction|].
      destruct (String.eqb_spec extra "return_memory") as [Heq | _];
        [contradiction|].
      cbn. eexists. reflexivity.
    + destruct (well_formed_raises_type_error kw e Hwf) as [msg ->].
      exists msg. reflexivity.
Qed.

Lemma NoDup_distinct (names : list string) :
  NoDup names -> AgentStepLog.distinct names = true.
Proof.
  induction 1 as [|name names Hnot _ IH]; cbn [AgentStepLog.distinct];
    [reflexivity|].
  rewrite (mem_not_In name names Hnot). exact IH.
Qed.

(** X9.  A [SystemPromptStep], called with [summary_mode] and any
    other keywords, each passed once and none of them [self], projects
    to nothing in summary mode and otherwise to exactly one system
    message, whose single text part is the trimmed prompt. *)
Theorem system_prompt_projection (sp : SystemPromptStep.t)
  (kw : AgentStepLog.kwargs) (summary_mode : bool) :
  ~ In "self" (map fst kw) ->
  NoDup (map fst kw) ->
  AgentStepLog.keyword "summary_mode" kw = Some summary_mode ->
  AgentStepLog.call_to_messages (AgentStepLog.SystemPrompt sp) kw
  = Py.Ok (if summary_mode
           then []
           else [Message.make SYSTEM
                   (Py.List [text_part (Py.strip (SystemPromptStep.system_prompt sp))])]).
Proof.
  intros Hself Hdup Hsm.
  pose proof (NoDup_distinct (map fst kw) Hdup) as Hdistinct.
  unfold AgentStepLog.call_to_messages, AgentStepLog.well_formed.
  rewrite (mem_not_In "self" (map fst kw) Hself), Hdistinct. cbn [Py.bind].
  unfold AgentStepLog.required. rewrite Hsm. cbn.
  destruct summary_mode; reflexivity.
Qed.

End ExportsAndCalls.

Lemma tool_call_dict_injective_witness :
  @ToolCall.id sample call_c1 = @ToolCall.id sample (@ToolCall.make sample "search" tt "c1").
Proof.
  apply (proj1 (@tool_call_dict_injective sample call_c1
                  (@ToolCall.make sample "search" tt "c1") eq_refl)).
Defined.

Lemma to_messages_keyword_binding_witness :
  (exists msg,
      @AgentStepLog.call_to_messages sample
        (AgentStepLog.Task (TaskStep.make "T" None)) [("return_memory", true)]
      = Py.Raise (Py.TypeError msg))
  /\ (exists msg,
        @AgentStepLog.call_to_messages sample
          (AgentStepLog.Task (TaskStep.make "T" None))
          [("self", true); ("summary_mode", true)]
        = Py.Raise (Py.TypeError msg))
  /\ @AgentStepLog.call_to_messages sample
       (AgentStepLog.Task (TaskStep.make "T" None))
       [("verbose", true); ("summary_mode", false)]
     = @AgentStepLog.call_to_messages sample
         (AgentStepLog.Task (TaskStep.make "T" None)) [("summary_mode", false)].
Proof.
  split; [|split].
  - apply (proj1 (@to_messages_keyword_binding sample
                    (AgentStepLog.Task (TaskStep.make "T" None))
                    [("return_memory", true)] "verbose" true)).
    reflexivity.
  - apply (proj1 (proj2 (@to_messages_keyword_binding sample
                           (AgentStepLog.Task (TaskStep.make "T" None))
                           [("self", true); ("summary_mode", true)] "verbose" true))).
    left. reflexivity.
  - apply (proj2 (proj2 (@to_messages_keyword_binding sample
                           (AgentStepLog.Task (TaskStep.make "T" None))
                           [("summary_mode", false)] "verbose" true))).
    + discriminate.
    + discriminate.
    + intros [Hin | []]. discriminate Hin.
Defined.

Lemma system_prompt_projection_witness :
  @AgentStepLog.call_to_messages sample
    (AgentStepLog.SystemPrompt (SystemPromptStep.make " be brief "))
    [("summary_mode", false); ("return_memory", true)]
  = Py.Ok [Message.make SYSTEM (Py.List [text_part "be brief"])].
Proof.
  apply (@system_prompt_projection sample
           (SystemPromptStep.make " be brief ")
           [("summary_mode", false); ("return_memory", true)] false).
  - intros [Hin | [Hin | []]]; discriminate Hin.
  - repeat constructor.
    + intros [Hin | []]. discriminate Hin.
    + intros [].
  - reflexivity.
Defined.

(** ** The trace store, composed *)

Section MoreStore.
Context `{Collaborators}.

(** X10.  Logging steps without a position keeps insertion order: after
    any list of steps has been logged, the step list is the old one
    followed by the new steps in the order given, and nothing else of
    the logger has changed; from a fresh logger the step list is the
    list logged. *)
Theorem log_steps_keeps_insertion_order (self : AgentLogger.t)
  (new_steps : list AgentStepLog.t) :
  (exists self',
      AgentLogger.log_steps self new_steps = Py.Ok self'
      /\ AgentLogger.steps self' = AgentLogger.steps self ++ new_steps
      /\ AgentLogger.chat_messages self' = AgentLogger.chat_messages self
      /\ AgentLogger.console self' = AgentLogger.console self
      /\ AgentLogger.level self' = AgentLogger.level self)
  /\ (forall lvl, exists fresh,
         AgentLogger.log_steps (AgentLogger.init lvl) new_steps = Py.Ok fresh
         /\ AgentLogger.steps fresh = new_steps).
Proof.
  assert (Hgen : forall self0,
             exists self',
               AgentLogger.log_steps self0 new_steps = Py.Ok self'
               /\ AgentLogger.steps self' = AgentLogger.steps self0 ++ new_steps
               /\ AgentLogger.chat_messages self' = AgentLogger.chat_messages self0
               /\ AgentLogger.console self' = AgentLogger.console self0
               /\ AgentLogger.level self' = AgentLogger.level self0).
  { induction new_steps as [|step rest IH]; intros self0; cbn.
    - exists self0. rewrite app_nil_r. repeat split.
    - destruct (IH (AgentLogger.set_steps self0 (AgentLogger.steps self0 ++ [step])))
        as (self' & Hok & Hsteps & Hchat & Hcons & Hlvl).
      exists self'. cbn in *. rewrite <- app_assoc in Hsteps. cbn in Hsteps.
      repeat split; assumption. }
  split; [apply Hgen|].
  intros lvl. destruct (Hgen (AgentLogger.init lvl)) as (fresh & Hok & Hsteps & _).
  exists fresh. split; assumption.
Qed.

(** X11.  Replacing the head twice is replacing it once with the last
    step; and a replacement never changes the length of a store that
    holds a step, where on the empty store it inserts. *)
Theorem head_replacement_last_wins (self : AgentLogger.t)
  (first_step second_step : AgentStepLog.t) :
  (self1 <- AgentLogger.log_step self first_step (Some 0%Z) ;;
   AgentLogger.log_step self1 second_step (Some 0%Z))
  = AgentLogger.log_step self second_step (Some 0%Z)
  /\ exists self',
       AgentLogger.log_step self second_step (Some 0%Z) = Py.Ok self'
       /\ (AgentLogger.steps self <> [] ->
           length (AgentLogger.steps self') = length (AgentLogger.steps self))
       /\ (AgentLogger.steps self = [] ->
           AgentLogger.steps self' = [second_step]).
Proof.
  split; [reflexivity|].
  eexists. split; [reflexivity|]. cbn.
  destruct (AgentLogger.steps self) as [|old rest]; cbn; split;
    first [ reflexivity | intros Hx; first [reflexivity | contradiction | discriminate] ].
Qed.


(** X13.  [get_extended_logs] follows the store: a step logged at the
    end adds its export at the end of [steps] and leaves
    [chat_messages] as it was; a chat message logged adds its export at
    the end of [chat_messages] and leaves [steps]; after [reset] the
    [steps] export is empty and the [chat_messages] export is kept. *)
Theorem extended_logs_follow_the_store (self : AgentLogger.t)
  (step : AgentStepLog.t) (msg : ChatMessage) :
  let exported l := map (fun s => Py.Dict (AgentStepLog.dict s)) l in
  let raw l := map ChatMessage_dict l in
  (exists self',
      AgentLogger.log_step self step None = Py.Ok self'
      /\ AgentLogger.get_extended_logs self'
         = [("steps", Py.List (exported (AgentLogger.steps self)
                               ++ [Py.Dict (AgentStepLog.dict step)]));
            ("chat_messages", Py.List (raw (AgentLogger.chat_messages self)))])
  /\ AgentLogger.get_extended_logs (AgentLogger.log_chat_messages self msg)
     = [("steps", Py.List (exported (AgentLogger.steps self)));
        ("chat_messages", Py.List (raw (AgentLogger.chat_messages self)
                                   ++ [ChatMessage_dict msg]))]
  /\ AgentLogger.get_extended_logs (AgentLogger.reset self)
     = [("steps", Py.List []);
        ("chat_messages", Py.List (raw (AgentLogger.chat_messages self)))].
Proof.
  cbv zeta. split; [|split].
  - eexists. split; [reflexivity|].
    unfold AgentLogger.get_extended_logs. cbn. rewrite map_app. reflexivity.
  - unfold AgentLogger.get_extended_logs. cbn. rewrite map_app. reflexivity.
  - reflexivity.
Qed.

(** X14.  [get_succinct_logs] returns only on the empty store, and then
    the empty list: with a single step stored, of any class, it
    raises. *)
Theorem get_succinct_logs_returns_iff_empty (self : AgentLogger.t)
  (logs : list (list (string * Py.val))) :
  AgentLogger.get_succinct_logs self = Py.Ok logs
  <-> AgentLogger.steps self = [] /\ logs = [].
Proof.
  unfold AgentLogger.get_succinct_logs.
  destruct (AgentLogger.steps self) as [|step rest]; cbn.
  - split.
    + intros Hok. injection Hok as <-. split; reflexivity.
    + intros [_ ->]. reflexivity.
  - unfold AgentLogger.succinct. rewrite call_items_raises. cbn. split.
    + intros Hok. discriminate Hok.
    + intros [Hnil _]. discriminate Hnil.
Qed.

(** *** log *)

Lemma upper_char_idempotent (c : ascii) :
  Py.upper_char (Py.upper_char c) = Py.upper_char c.
Proof.
  destruct c as [[] [] [] [] [] [] [] []]; reflexivity.
Qed.

Lemma upper_idempotent (s : string) : Py.upper (Py.upper s) = Py.upper s.
Proof.
  induction s as [|c s IH]; cbn; [reflexivity|].
  rewrite upper_char_idempotent, IH. reflexivity.
Qed.

(** X15.  [log] prints exactly when the message's level is at most the
    logger's: it then appends the one entry to the console, and
    otherwise leaves the logger as it is; steps and chat messages are
    never touched.  So an [ERROR] message is printed by every logger,
    and a [DEBUG] logger prints every message. *)
Theorem log_prints_iff_level_allows (self : AgentLogger.t)
  (printed : AgentLogger.console_entry) (l : LogLevel) :
  (exists self',
      AgentLogger.log self printed (AgentLogger.Level l) = AgentLogger.Logged self'
      /\ AgentLogger.steps self' = AgentLogger.steps self
      /\ AgentLogger.chat_messages self' = AgentLogger.chat_messages self
      /\ AgentLogger.level self' = AgentLogger.level self
      /\ ((LogLevel_value l <= LogLevel_value (AgentLogger.level self))%Z ->
          AgentLogger.console self' = AgentLogger.console self ++ [printed])
      /\ ((LogLevel_value (AgentLogger.level self) < LogLevel_value l)%Z ->
          self' = self))
  /\ AgentLogger.log self printed (AgentLogger.Level ERROR)
     = AgentLogger.Logged (AgentLogger.console_log self [printed])
  /\ (AgentLogger.level self = DEBUG ->
      AgentLogger.log self printed (AgentLogger.Level l)
      = AgentLogger.Logged (AgentLogger.console_log self [printed])).
Proof.
  split; [|split].
  - unfold AgentLogger.log.
    destruct (Z.leb_spec (LogLevel_value l) (LogLevel_value (AgentLogger.level self)))
      as [Hle | Hlt].
    + eexists. split; [reflexivity|]. cbn. repeat split. intros Hlt. lia.
    + exists self. repeat split. intros Hle. lia.
  - unfold AgentLogger.log. destruct (AgentLogger.level self); reflexivity.
  - intros Hdebug. unfold AgentLogger.log. rewrite Hdebug. destruct l; reflexivity.
Qed.

(** X16.  A level given by an ASCII name is looked up by its
    upper-cased name, so the case of the name does not matter; a name
    that is one of ERROR, INFO, DEBUG once upper-cased means that
    level, and any other name raises [KeyError] for the upper-cased
    name, with nothing printed. *)
Theorem log_level_by_name (self : AgentLogger.t)
  (printed : AgentLogger.console_entry) (name : string) :
  Py.is_ascii name = true ->
  AgentLogger.log self printed (AgentLogger.LevelName (Py.upper name))
  = AgentLogger.log self printed (AgentLogger.LevelName name)
  /\ (forall l,
         Py.upper name = match l with
                         | ERROR => "ERROR"
                         | INFO => "INFO"
                         | DEBUG => "DEBUG"
                         end ->
         AgentLogger.log self printed (AgentLogger.LevelName name)
         = AgentLogger.log self printed (AgentLogger.Level l))
  /\ (Py.upper name <> "ERROR" -> Py.upper name <> "INFO" ->
      Py.upper name <> "DEBUG" ->
      AgentLogger.log self printed (AgentLogger.LevelName name)
      = AgentLogger.KeyError (Py.upper name)).
Proof.
  intros _. split; [|split].
  - unfold AgentLogger.log. rewrite upper_idempotent. reflexivity.
  - intros l Hname. unfold AgentLogger.log. rewrite Hname.
    destruct l; reflexivity.
  - intros He Hi Hd. unfold AgentLogger.log, LogLevel_by_name.
    destruct (String.eqb_spec (Py.upper name) "ERROR") as [Heq | _];
      [contradiction|].
    destruct (String.eqb_spec (Py.upper name) "INFO") as [Heq | _];
      [contradiction|].
    destruct (String.eqb_spec (Py.upper name) "DEBUG") as [Heq | _];
      [contradiction|].
    reflexivity.
Qed.

(** X17.  Raising a logger's level never silences a message: what a
    logger prints, a logger of a higher level, otherwise the same,
    prints too. *)
Theorem log_is_monotone_in_level (lvl lvl' l : LogLevel)
  (steps : list AgentStepLog.t) (chat : list ChatMessage)
  (out : list AgentLogger.console_entry) (printed : AgentLogger.console_entry) :
  (LogLevel_value lvl <= LogLevel_value lvl')%Z ->
  AgentLogger.log (AgentLogger.make lvl steps chat out) printed (AgentLogger.Level l)
  = AgentLogger.Logged (AgentLogger.make lvl steps chat (out ++ [printed])) ->
  AgentLogger.log (AgentLogger.make lvl' steps chat out) printed (AgentLogger.Level l)
  = AgentLogger.Logged (AgentLogger.make lvl' steps chat (out ++ [printed])).
Proof.
  intros Hle Hprinted. unfold AgentLogger.log in *. cbn in *.
  destruct (Z.leb_spec (LogLevel_value l) (LogLevel_value lvl)) as [Hl | Hl].
  - destruct (Z.leb_spec (LogLevel_value l) (LogLevel_value lvl')) as [_ | Hl'];
      [reflexivity | lia].
  - exfalso. injection Hprinted as Hout.
    apply (f_equal (@length _)) in Hout. rewrite length_app in Hout.
    cbn in Hout. lia.
Qed.

End MoreStore.

Lemma head_replacement_last_wins_witness :
  exists self',
    @AgentLogger.log_step sample (@AgentLogger.init sample INFO)
      (AgentStepLog.SystemPrompt (SystemPromptStep.make "prompt")) (Some 0%Z)
    = Py.Ok self'
    /\ AgentLogger.steps self'
       = [AgentStepLog.SystemPrompt (SystemPromptStep.make "prompt")].
Proof.
  destruct (proj2 (@head_replacement_last_wins sample (@AgentLogger.init sample INFO)
                     (AgentStepLog.Task (TaskStep.make "T" None))
                     (AgentStepLog.SystemPrompt (SystemPromptStep.make "prompt"))))
    as (self' & Hok & _ & Hempty).
  exists self'. split; [exact Hok | apply Hempty; reflexivity].
Defined.

Lemma log_prints_iff_level_allows_witness :
  @AgentLogger.log sample (@AgentLogger.make sample DEBUG [] [] [])
    (AgentLogger.Text "details") (AgentLogger.Level DEBUG)
  = AgentLogger.Logged
      (@AgentLogger.make sample DEBUG [] [] [AgentLogger.Text "details"]).
Proof.
  apply (proj2 (proj2 (@log_prints_iff_level_allows sample
                         (@AgentLogger.make sample DEBUG [] [] [])
                         (AgentLogger.Text "details") DEBUG))).
  reflexivity.
Defined.

Lemma log_level_by_name_witness :
  @AgentLogger.log sample (@AgentLogger.init sample INFO)
    (AgentLogger.Text "details") (AgentLogger.LevelName "Debug")
  = AgentLogger.Logged (@AgentLogger.init sample INFO)
  /\ @AgentLogger.log sample (@AgentLogger.init sample INFO)
       (AgentLogger.Text "details") (AgentLogger.LevelName "verbose")
     = AgentLogger.KeyError "VERBOSE".
Proof.
  split.
  - apply (proj1 (proj2 (@log_level_by_name sample (@AgentLogger.init sample INFO)
                           (AgentLogger.Text "details") "Debug" eq_refl)) DEBUG).
    reflexivity.
  - apply (proj2 (proj2 (@log_level_by_name sample (@AgentLogger.init sample INFO)
                           (AgentLogger.Text "details") "verbose" eq_refl)));
      discriminate.
Defined.

Lemma log_is_monotone_in_level_witness :
  @AgentLogger.log sample (@AgentLogger.make sample DEBUG [] [] [])
    (AgentLogger.Text "note") (AgentLogger.Level INFO)
  = AgentLogger.Logged (@AgentLogger.make sample DEBUG [] [] [AgentLogger.Text "note"]).
Proof.
  apply (@log_is_monotone_in_level sample INFO DEBUG INFO [] [] []
           (AgentLogger.Text "note")).
  - cbn. lia.
  - reflexivity.
Defined.

(** ** The rendering loop, beyond the fallback *)

Section MoreRendering.
Context `{Collaborators}.

(** The role strings are already trimmed, and the [match] gives each
    role its theme and counts the assistant turns. *)
Lemma turn_of_role (r : MessageRole) (ix : nat) :
  Py.strip (role_value r) = role_value r
  /\ AgentLogger.turn (role_value r) ix
     = (role_theme r, ix + assistant_turns [Message.make r Py.None_]).
Proof.
  destruct r; cbn; rewrite ?Nat.add_0_r, ?Nat.add_1_r; split; reflexivity.
Qed.

Lemma assistant_turns_app (l1 l2 : list Message.t) :
  assistant_turns (l1 ++ l2) = assistant_turns l1 + assistant_turns l2.
Proof.
  induction l1 as [|m l1 IH]; cbn; [reflexivity|].
  destruct (Message.role m); rewrite IH; reflexivity.
Qed.

Lemma assistant_turns_one (m : Message.t) :
  assistant_turns [m] = assistant_turns [Message.make (Message.role m) Py.None_].
Proof.
  reflexivity.
Qed.

(** One message of the loop: the counter moves first, then the content
    is interpreted and iterated. *)
Lemma render_cons (m : Message.t) (rest : list Message.t) (ix : nat) :
  AgentLogger.render (m :: rest) ix
  = match (content <- AgentLogger.interpret (Message.content m) ;;
           AgentLogger.iterate content) with
    | Py.Raise e => ([], Some e)
    | Py.Ok items =>
        (AgentLogger.blocks (role_value (Message.role m))
           (role_theme (Message.role m)) (ix + assistant_turns [m])
           (length items) 0 items
         ++ fst (AgentLogger.render rest (ix + assistant_turns [m])),
         snd (AgentLogger.render rest (ix + assistant_turns [m])))
    end.
Proof.
  cbn [AgentLogger.render].
  destruct (turn_of_role (Message.role m) ix) as [Hstrip Hturn].
  rewrite Hstrip, Hturn, <- assistant_turns_one.
  destruct (content <- AgentLogger.interpret (Message.content m) ;;
            AgentLogger.iterate content) as [items|e]; [|reflexivity].
  destruct (AgentLogger.render rest (ix + assistant_turns [m])); reflexivity.
Qed.

(** The loop over two sequences in a row: the second is rendered only
    if the first raised nothing, with the counter the first left. *)
Lemma render_app (l1 l2 : list Message.t) (ix : nat) :
  AgentLogger.render (l1 ++ l2) ix
  = match snd (AgentLogger.render l1 ix) with
    | None =>
        (fst (AgentLogger.render l1 ix)
         ++ fst (AgentLogger.render l2 (ix + assistant_turns l1)),
         snd (AgentLogger.render l2 (ix + assistant_turns l1)))
    | Some e => AgentLogger.render l1 ix
    end.
Proof.
  revert ix. induction l1 as [|m l1 IH]; intros ix.
  - cbn. rewrite Nat.add_0_r.
    destruct (AgentLogger.render l2 ix); reflexivity.
  - rewrite <- app_comm_cons, !render_cons.
    destruct (content <- AgentLogger.interpret (Message.content m) ;;
              AgentLogger.iterate content) as [items|e]; [|reflexivity].
    rewrite IH. cbn [fst snd].
    change (m :: l1) with ([m] ++ l1).
    rewrite (assistant_turns_app [m] l1), Nat.add_assoc.
    destruct (AgentLogger.render l1 (ix + assistant_turns [m])) as [written [e|]];
      cbn [fst snd]; [reflexivity | rewrite app_assoc; reflexivity].
Qed.



(** X18.  The step number of a block counts assistant messages.  In a
    sequence whose messages up to and including [m] all take the
    fallback, the block written for [m] is the one at [m]'s position;
    it carries the upper-cased role of [m], the theme of that role, and
    as its step the starting counter plus the number of assistant
    messages up to and including [m], whatever comes after. *)
Theorem render_counts_assistant_turns (pre post : list Message.t)
  (m : Message.t) (ix : nat) :
  Forall (fun x => AgentLogger.eval (Message.content x) = RaisesException)
         (pre ++ [m]) ->
  nth_error (fst (AgentLogger.render (pre ++ m :: post) ix)) (length pre)
  = Some (AgentLogger.Block
            (AgentLogger.title (role_value (Message.role m))
               (ix + assistant_turns (pre ++ [m])) 0 1)
            (AgentLogger.body (Message.content m))
            (role_theme (Message.role m))).
Proof.
  intros Hall. apply Forall_app in Hall. destruct Hall as [Hpre Hm].
  apply Forall_inv in Hm.
  destruct (render_all_degraded pre ix Hpre) as [Hnone Hlen].
  rewrite render_app, Hnone. cbn [fst].
  rewrite nth_error_app2; [|rewrite Hlen; apply Nat.le_refl].
  rewrite Hlen, Nat.sub_diag, render_cons.
  unfold AgentLogger.interpret. rewrite Hm. cbn.
  rewrite assistant_turns_app, Nat.add_assoc. reflexivity.
Qed.


(** X20.  The fallback covers [eval] only.  When [eval] raises
    something that is no [Exception], or returns a value that cannot be
    iterated (None, a bool, a number), the loop stops there: what the
    earlier messages wrote stays on the console, the message itself and
    all later ones write nothing, and the exception leaves the loop. *)
Theorem render_stops_at_first_failure (pre post : list Message.t)
  (m : Message.t) (ix : nat) :
  snd (AgentLogger.render pre ix) = None ->
  (AgentLogger.eval (Message.content m) = RaisesBaseException ->
   AgentLogger.render (pre ++ m :: post) ix
   = (fst (AgentLogger.render pre ix), Some Py.BaseException_other))
  /\ (forall v,
         AgentLogger.eval (Message.content m) = Returns v ->
         match v with
         | Py.List _ | Py.Str _ | Py.Dict _ => False
         | _ => True
         end ->
         AgentLogger.render (pre ++ m :: post) ix
         = (fst (AgentLogger.render pre ix),
            Some (Py.TypeError "object is not iterable"))).
Proof.
  intros Hpre. split.
  - intros Heval. rewrite render_app, Hpre, render_cons.
    unfold AgentLogger.interpret. rewrite Heval. cbn.
    rewrite app_nil_r. reflexivity.
  - intros v Heval Hv. rewrite render_app, Hpre, render_cons.
    unfold AgentLogger.interpret. rewrite Heval.
    destruct v; try contradiction; cbn; rewrite app_nil_r; reflexivity.
Qed.

End MoreRendering.

Lemma render_counts_assistant_turns_witness :
  nth_error
    (fst (@AgentLogger.render sample
            [Message.make SYSTEM (Py.List [text_part "prompt"]);
             Message.make ASSISTANT (Py.List [text_part "one"]);
             Message.make ASSISTANT (Py.List [text_part "two"]);
             Message.make USER (Py.List [text_part "more"])] 0)) 2
  = Some (AgentLogger.Block "ASSISTANT, STEP 2, SUBSTEP 1/1" "<repr>" "monokai").
Proof.
  apply (@render_counts_assistant_turns sample
           [Message.make SYSTEM (Py.List [text_part "prompt"]);
            Message.make ASSISTANT (Py.List [text_part "one"])]
           [Message.make USER (Py.List [text_part "more"])]
           (Message.make ASSISTANT (Py.List [text_part "two"])) 0).
  repeat constructor.
Defined.


Lemma render_stops_at_first_failure_witness :
  @AgentLogger.render sample_evaluating
    [Message.make USER (Py.List [text_part "task"]);
     Message.make ASSISTANT (Py.Str "42");
     Message.make USER (Py.List [text_part "never shown"])] 0
  = ([AgentLogger.Block "USER, STEP 0, SUBSTEP 1/1" "<repr>" "default"],
     Some (Py.TypeError "object is not iterable"))
  /\ @AgentLogger.render sample_evaluating
       [Message.make ASSISTANT (Py.Str "exit()");
        Message.make USER (Py.List [text_part "never shown"])] 0
     = ([], Some Py.BaseException_other).
Proof.
  split.
  - apply (proj2 (@render_stops_at_first_failure sample_evaluating
                    [Message.make USER (Py.List [text_part "task"])]
                    [Message.make USER (Py.List [text_part "never shown"])]
                    (Message.make ASSISTANT (Py.Str "42")) 0 eq_refl)
             (Py.Int 42) eq_refl I).
  - apply (proj1 (@render_stops_at_first_failure sample_evaluating []
                    [Message.make USER (Py.List [text_part "never shown"])]
                    (Message.make ASSISTANT (Py.Str "exit()")) 0 eq_refl)
             eq_refl).
Defined.

(** ** Rendering what the steps project *)

(** X21.  Every message a stored step projects is rendered as exactly
    one block: a content that is a list of parts is not a string, so
    [eval] refuses it and the list is shown whole, never part by part;
    and the string contents start with a fixed prefix.  Where [eval]
    refuses those prefixes, rendering the projection of any step raises
    nothing. *)
Theorem projection_renders_one_block_per_message `{Collaborators}
  (step : AgentStepLog.t) (summary_mode include_memory : bool)
  (messages : list Message.t) (ix : nat) :
  Spec.eval_refuses_prefixes ->
  AgentStepLog.to_messages step summary_mode include_memory = Py.Ok messages ->
  snd (AgentLogger.render messages ix) = None
  /\ length (fst (AgentLogger.render messages ix)) = length messages
  /\ Forall (fun m =>
               forall parts, Message.content m = Py.List parts ->
                             AgentLogger.interpret (Message.content m)
                             = Py.Ok (Py.List [Py.List parts]))
            messages.
Proof.
  intros Hev Hok.
  pose proof (step_contents step summary_mode include_memory messages Hok) as Hall.
  assert (Hdeg : Forall (fun m => AgentLogger.eval (Message.content m)
                                  = RaisesException) messages).
  { apply Forall_forall. intros m Hm.
    apply projected_uninterpretable; [exact Hev|].
    revert m Hm. apply Forall_forall. exact Hall. }
  destruct (render_all_degraded messages ix Hdeg) as [Hnone Hlen].
  split; [exact Hnone|]. split; [exact Hlen|].
  apply Forall_forall. intros m Hm parts Hparts. rewrite Hparts. reflexivity.
Qed.

Lemma projection_renders_one_block_per_message_witness :
  snd (@AgentLogger.render sample
         [Message.make USER
            (Py.List [text_part ("New task:" ++ Py.newline ++ "T");
                      image_part "a"])] 0)
  = None.
Proof.
  apply (@projection_renders_one_block_per_message sample
           (AgentStepLog.Task (TaskStep.make "T" (Some ["a"]))) false false
           [Message.make USER
              (Py.List [text_part ("New task:" ++ Py.newline ++ "T");
                        image_part "a"])] 0).
  - intros tail. repeat split.
  - reflexivity.
Defined.
